(** * Session continuity in the inbound messaging handler

    A shallow embedding of [src/messaging/InboundHandlerV2.mjs]: the Lambda
    [handler] that receives an inbound message, looks the originating number
    up in a DynamoDB table, tries to reuse the stored participant connection
    and otherwise starts a new chat contact (rehydrated from the previous
    one) and stores the new session.

    The handler is an [async] function: it is embedded as a tree of awaited
    calls ([Async]) with JavaScript's [try]/[catch], and run against a world
    made of the DynamoDB table and of the Amazon Connect services, whose
    answers are arbitrary. *)

From stdpp Require Import gmap strings pretty.
From Stdlib Require Import ZArith.

Set Warnings "-register-all".

Open Scope string_scope.
Open Scope Z_scope.

(** ** JavaScript values *)

(** The values the handler handles: what [JSON.parse] produces, what the
    AWS SDK takes and returns. Numbers only matter to the handler through
    their truthiness; they are integers here. An object is the list of its
    own properties, in insertion order, each key once. *)
Inductive JsValue : Type :=
| JUndefined
| JNull
| JBool (b : bool)
| JNum (n : Z)
| JStr (s : string)
| JArr (items : list JsValue)
| JObj (fields : list (string * JsValue)).

(** A thrown value. The handler has no [throw] of its own: what is thrown is
    an [Error] of the runtime ([SyntaxError], [TypeError]) or of the SDK. *)
Record Error : Type := { name : string; message : string }.

(** ToBoolean, as used by [!x], [x || y], [x && y], [x ? a : b] and [if (x)]. *)
Definition truthy (v : JsValue) : bool :=
  match v with
  | JUndefined | JNull => false
  | JBool b => b
  | JNum n => negb (n =? 0)
  | JStr s => negb (String.eqb s EmptyString)
  | JArr _ | JObj _ => true
  end.

(** [v === "lit"] for a string literal. *)
Definition strict_eq_str (v : JsValue) (lit : string) : bool :=
  match v with
  | JStr s => String.eqb s lit
  | _ => false
  end.

(** Own property [key] of an object's property list; [undefined] when absent. *)
Fixpoint field (fields : list (string * JsValue)) (key : string) : JsValue :=
  match fields with
  | [] => JUndefined
  | (k, v) :: rest => if String.eqb k key then v else field rest key
  end.

(** [obj.key = v] on an object that has no property [key] yet. *)
Definition set_prop (obj : JsValue) (key : string) (v : JsValue) : JsValue :=
  match obj with
  | JObj fields => JObj (fields ++ [(key, v)])
  | _ => obj
  end.

(** The message V8 gives to the [TypeError] of a property read on
    [undefined] or [null]. *)
Definition TypeError (base key : string) : Error :=
  {| name := "TypeError";
     message := "Cannot read properties of " ++ base ++ " (reading '" ++ key ++ "')" |}.

(** ** Asynchronous computations *)

Inductive Client : Type := connectClient | participantClient | dynamoClient.

(** The SDK commands the handler sends, each with its input. *)
Inductive Command : Type :=
| GetItemCommand (input : JsValue)
| PutItemCommand (input : JsValue)
| SendMessageCommand (input : JsValue)
| StartChatContactCommand (input : JsValue)
| StartContactStreamingCommand (input : JsValue)
| CreateParticipantConnectionCommand (input : JsValue).

(** What the promise of [client.send(command)] settles to: the SDK resolves
    it with an output object or rejects it with an error. *)
Inductive Outcome : Type :=
| Resolved (output : list (string * JsValue))
| Rejected (err : Error).

(** The body of an [async] function, up to its awaited calls. [Await] is
    [await client.send(command)]; its continuation takes the settled
    promise. [DateNow] is [Date.now()]. *)
Inductive Async (A : Type) : Type :=
| Return (a : A)
| Throw (e : Error)
| Await (client : Client) (command : Command) (k : Outcome -> Async A)
| DateNow (k : Z -> Async A).

Arguments Return {A} a.
Arguments Throw {A} e.
Arguments Await {A} client command k.
Arguments DateNow {A} k.

Fixpoint bind {A B : Type} (m : Async A) (f : A -> Async B) : Async B :=
  match m with
  | Return a => f a
  | Throw e => Throw e
  | Await client command k => Await client command (fun o => bind (k o) f)
  | DateNow k => DateNow (fun t => bind (k t) f)
  end.

(** [try { m } catch (e) { handler e }] *)
Fixpoint try_catch {A : Type} (m : Async A) (handler : Error -> Async A) : Async A :=
  match m with
  | Return a => Return a
  | Throw e => handler e
  | Await client command k => Await client command (fun o => try_catch (k o) handler)
  | DateNow k => DateNow (fun t => try_catch (k t) handler)
  end.

Notation "x <- m ;; k" := (bind m (fun x => k))
  (at level 20, m at level 99, k at level 200, only parsing).

(** [await client.send(command)]: a rejected promise throws at the [await]. *)
Definition send (client : Client) (command : Command) : Async JsValue :=
  Await client command (fun o =>
    match o with
    | Resolved output => Return (JObj output)
    | Rejected err => Throw err
    end).

(** [undefined] and [null], the values a property read throws on. *)
Definition nullish (v : JsValue) : bool :=
  match v with
  | JUndefined | JNull => true
  | _ => false
  end.

(** The value of [v.key] when [v] is not nullish. The primitives and arrays
    have none of the properties the handler reads. *)
Definition prop (v : JsValue) (key : string) : JsValue :=
  match v with
  | JObj fields => field fields key
  | _ => JUndefined
  end.

Definition read_error (v : JsValue) (key : string) : Error :=
  TypeError (match v with JNull => "null" | _ => "undefined" end) key.

(** [v.key]: reading a property of [undefined] or [null] throws. *)
Definition get_prop (v : JsValue) (key : string) : Async JsValue :=
  if nullish v then Throw (read_error v key) else Return (prop v key).

Notation "v .[ key ]" := (get_prop v key) (at level 1, format "v .[ key ]").

(** How an evaluation ends: with a value, or by a throw. *)
Inductive Completion (A : Type) : Type :=
| Normal (a : A)
| Abrupt (e : Error).

Arguments Normal {A} a.
Arguments Abrupt {A} e.

Definition lift {A : Type} (c : Completion A) : Async A :=
  match c with
  | Normal a => Return a
  | Abrupt e => Throw e
  end.

(** [a && b]: [a] when it is falsy, otherwise [b], which is evaluated only then. *)
Definition js_and (a : JsValue) (b : Async JsValue) : Async JsValue :=
  if truthy a then b else Return a.

(** ** The world the handler runs in *)

(** The DynamoDB table, keyed by the string of its partition key
    [originatingNumber], and the state of everything else outside. *)
Record World (S : Type) : Type := { table : gmap string JsValue; services : S }.

Arguments table {S} w.
Arguments services {S} w.

(** One awaited call and what it settled to. *)
Definition Call : Type := Client * Command * Outcome.

(** A finished invocation: the calls it made, in order, how it ended, and
    the world it leaves. [Abrupt] is the rejection of the handler's promise. *)
Record Run (S A : Type) : Type := {
  trace : list Call;
  completion : Completion A;
  final : World S
}.

Arguments trace {S A} r.
Arguments completion {S A} r.
Arguments final {S A} r.

(** The run that makes [call] first and goes on as [r]. *)
Definition after {S A : Type} (call : Call) (r : Run S A) : Run S A :=
  {| trace := call :: trace r; completion := completion r; final := final r |}.

(** The string [k] of an attribute map [{ originatingNumber: { S: k } }]. *)
Definition key_of (attributes : JsValue) : option string :=
  match prop (prop attributes "originatingNumber") "S" with
  | JStr k => Some k
  | _ => None
  end.

Definition ValidationException : Error :=
  {| name := "ValidationException";
     message := "The provided key element does not match the schema" |}.

(** [GetItem]: the output has an [Item] exactly when the key is in the table. *)
Definition GetItem (t : gmap string JsValue) (input : JsValue) : Outcome :=
  match key_of (prop input "Key") with
  | Some k =>
      match t !! k with
      | Some item => Resolved [("Item", item)]
      | None => Resolved []
      end
  | None => Rejected ValidationException
  end.

(** [PutItem]: the item replaces whatever the table holds under its key. *)
Definition PutItem (t : gmap string JsValue) (input : JsValue) : option (gmap string JsValue) :=
  match key_of (prop input "Item") with
  | Some k => Some (<[k := prop input "Item"]> t)
  | None => None
  end.

Section Run.

Context {S : Type}.

(** The Amazon Connect services answer a command as they please. DynamoDB
    may refuse a command ([Some err], the table is left as it is: an unset
    table name, an ill-formed attribute, an outage); when it does not, the
    command reads or writes the one table of the handler. *)
Variable service : S -> Command -> Outcome * S.
Variable dynamo_fault : S -> Command -> option Error * S.
Variable clock : S -> Z.

Definition perform (w : World S) (command : Command) : Outcome * World S :=
  match command with
  | GetItemCommand input =>
      match dynamo_fault (services w) command with
      | (Some err, s) => (Rejected err, {| table := table w; services := s |})
      | (None, s) => (GetItem (table w) input, {| table := table w; services := s |})
      end
  | PutItemCommand input =>
      match dynamo_fault (services w) command with
      | (Some err, s) => (Rejected err, {| table := table w; services := s |})
      | (None, s) =>
          match PutItem (table w) input with
          | Some t => (Resolved [], {| table := t; services := s |})
          | None => (Rejected ValidationException, {| table := table w; services := s |})
          end
      end
  | _ =>
      match service (services w) command with
      | (o, s) => (o, {| table := table w; services := s |})
      end
  end.

Fixpoint run {A : Type} (m : Async A) (w : World S) : Run S A :=
  match m with
  | Return a => {| trace := []; completion := Normal a; final := w |}
  | Throw e => {| trace := []; completion := Abrupt e; final := w |}
  | Await client command k =>
      match perform w command with
      | (o, w') => after (client, command, o) (run (k o) w')
      end
  | DateNow k => run (k (clock (services w))) w
  end.

End Run.

(** ** The handler *)

(** The Lambda event of a function URL: the request path and the raw body. *)
Module Event.
Record t : Type := { rawPath : string; body : option string }.
End Event.

(** A response body is a string: either a literal, or [JSON.stringify(v)],
    kept as the value [v] it serialises. *)
Inductive Body : Type :=
| Text (s : string)
| JSON_stringify (v : JsValue).

(** What the handler returns: [{ statusCode, body }]. *)
Module Result.
Record t : Type := { statusCode : Z; body : Body }.
End Result.

(** The variables of the handler once the request has been read. *)
Record Request : Type := {
  firstMessage : JsValue;
  originatingNumber : JsValue;
  content : JsValue
}.

(** [process.env]: a variable is a string, or [undefined] when unset. *)
Record ProcessEnv : Type := {
  DYNAMO_TABLE_NAME : option string;
  CONNECT_INSTANCE_ID : option string;
  CONTACT_FLOW_ID : option string;
  SNS_STREAMING_ARN : option string;
  SESSION_TTL_HOURS : option string
}.

Definition env_value (v : option string) : JsValue :=
  match v with
  | Some s => JStr s
  | None => JUndefined
  end.

Definition Missing_data : Result.t :=
  {| Result.statusCode := 400; Result.body := Text "Missing data" |}.

Section Handler.

(** The built-ins [JSON.parse] and [parseInt] ([None] is [NaN]) and the
    environment of the process. *)
Variable JSON_parse : string -> Completion JsValue.
Variable parseInt : JsValue -> option Z.
Variable process_env : ProcessEnv.

(** Line 28: [body ? JSON.parse(body) : {}]. An absent body and the empty
    string are falsy. *)
Definition parse_body (body : option string) : Completion JsValue :=
  match body with
  | Some s => if negb (String.eqb s EmptyString) then JSON_parse s else Normal (JObj [])
  | None => Normal (JObj [])
  end.

(** Lines 27-65: parse the body, read the fields of the path, validate. *)
Definition parse_request (event : Event.t) : Async (Result.t + Request) :=
  let rawPath := Event.rawPath event in
  let body := Event.body event in
  parsedBody <- lift (parse_body body) ;;
  if String.eqb rawPath "/salesforce" then
    firstMessage <- parsedBody.["firstMessage"] ;;
    originatingNumber <- parsedBody.["originatingNumber"] ;;
    content <- parsedBody.["content"] ;;
    if negb (truthy originatingNumber) || negb (truthy firstMessage)
    then Return (inl Missing_data)
    else Return (inr {| firstMessage := firstMessage;
                        originatingNumber := originatingNumber;
                        content := content |})
  else if String.eqb rawPath "/modica" then
    originatingNumber <- parsedBody.["source"] ;;
    destinationNumber <- parsedBody.["destination"] ;;
    content <- parsedBody.["content"] ;;
    if negb (truthy originatingNumber) || negb (truthy destinationNumber)
    then Return (inl Missing_data)
    else Return (inr {| firstMessage := JUndefined;
                        originatingNumber := originatingNumber;
                        content := content |})
  else Return (inl Missing_data).

(** Lines 69-72: [if (!firstMessage) firstMessage = "0"]. *)
Definition default_firstMessage (firstMessage : JsValue) : JsValue :=
  if negb (truthy firstMessage) then JStr "0" else firstMessage.

Definition dbParams (originatingNumber : JsValue) : JsValue :=
  JObj [("TableName", env_value (DYNAMO_TABLE_NAME process_env));
        ("Key", JObj [("originatingNumber", JObj [("S", originatingNumber)])])].

Definition sendMessageParams (content token : JsValue) : JsValue :=
  JObj [("ContentType", JStr "text/plain");
        ("Content", content);
        ("ConnectionToken", token)].

Definition Resumed (messageId : JsValue) : Result.t :=
  {| Result.statusCode := 200;
     Result.body := JSON_stringify (JObj [("status", JStr "Resumed");
                                          ("messageId", messageId)]) |}.

(** Lines 85-108: reuse the stored session. The right injection is the
    fall-through to the creation of a session, with [previousContactId]. *)
Definition reuse_session (content dbResponse : JsValue) : Async (Result.t + JsValue) :=
  Item <- dbResponse.["Item"] ;;
  found <- js_and Item (Item.["ConnectionToken"]) ;;
  if truthy found then
    ConnectionToken <- Item.["ConnectionToken"] ;;
    storedToken <- ConnectionToken.["S"] ;;
    ContactId <- Item.["ContactId"] ;;
    previousContactId <- ContactId.["S"] ;;
    try_catch
      (sendResponse <- send participantClient
                         (SendMessageCommand (sendMessageParams content storedToken)) ;;
       Id <- sendResponse.["Id"] ;;
       Return (inl (Resumed Id)))
      (fun err => Return (inr previousContactId))
  else Return (inr JNull).

Definition PersistentChat (previousContactId : JsValue) : JsValue :=
  JObj [("RehydrationType", JStr "FROM_SEGMENT");
        ("SourceContactId", previousContactId)].

(** Lines 116-137. *)
Definition startChatParams (req : Request) (previousContactId : JsValue) : JsValue :=
  let base :=
    JObj [("InstanceId", env_value (CONNECT_INSTANCE_ID process_env));
          ("ContactFlowId", env_value (CONTACT_FLOW_ID process_env));
          ("Attributes", JObj [("CustomerNumber", originatingNumber req);
                               ("FirstMessage", firstMessage req)]);
          ("ParticipantDetails", JObj [("DisplayName", originatingNumber req)])] in
  if truthy previousContactId
  then set_prop base "PersistentChat" (PersistentChat previousContactId)
  else base.

Definition streamingParams (ContactId : JsValue) : JsValue :=
  JObj [("InstanceId", env_value (CONNECT_INSTANCE_ID process_env));
        ("ContactId", ContactId);
        ("ChatStreamingConfiguration",
         JObj [("StreamingEndpointArn", env_value (SNS_STREAMING_ARN process_env))])].

Definition connectionParams (ParticipantToken : JsValue) : JsValue :=
  JObj [("ParticipantToken", ParticipantToken);
        ("Type", JArr [JStr "CONNECTION_CREDENTIALS"]);
        ("ConnectParticipant", JBool true)].

(** Lines 178-182: [parseInt(...) || 24], the current time in seconds, the
    expiry. The source computes these in binary64; here they are integers,
    and the two agree while the numbers stay within 2^53 in magnitude (see
    [exact_expiry] below), which a clock reading always does and the product
    and the sum do unless [SESSION_TTL_HOURS] is some 10^12 hours or more.
    What is proved of the value of the expiry is proved within that range. *)
Definition ttlHours : Z :=
  match parseInt (env_value (SESSION_TTL_HOURS process_env)) with
  | Some n => if n =? 0 then 24 else n
  | None => 24
  end.

Definition expirationTime (now : Z) : Z :=
  let nowInSeconds := now / 1000 in
  nowInSeconds + ttlHours * 3600.

(** The item of lines 186-191. *)
Definition sessionItem (originatingNumber ContactId newToken : JsValue) (now : Z) : JsValue :=
  JObj [("originatingNumber", JObj [("S", originatingNumber)]);
        ("ContactId", JObj [("S", ContactId)]);
        ("ConnectionToken", JObj [("S", newToken)]);
        ("expiryDateTime", JObj [("N", JStr (pretty (expirationTime now)))])].

Definition putParams (Item : JsValue) : JsValue :=
  JObj [("TableName", env_value (DYNAMO_TABLE_NAME process_env)); ("Item", Item)].

Definition Created (ContactId : JsValue) : Result.t :=
  {| Result.statusCode := 200;
     Result.body := JSON_stringify (JObj [("status", JStr "Created entry in DDB");
                                          ("contactId", ContactId)]) |}.

(** Lines 113-194: create a new session and save it. *)
Definition create_session (req : Request) (previousContactId : JsValue) : Async Result.t :=
  startChatResp <- send connectClient
                     (StartChatContactCommand (startChatParams req previousContactId)) ;;
  ContactId <- startChatResp.["ContactId"] ;;
  ParticipantToken <- startChatResp.["ParticipantToken"] ;;
  streamingResult <- send connectClient
                       (StartContactStreamingCommand (streamingParams ContactId)) ;;
  connectionResp <- send participantClient
                      (CreateParticipantConnectionCommand (connectionParams ParticipantToken)) ;;
  ConnectionCredentials <- connectionResp.["ConnectionCredentials"] ;;
  newToken <- ConnectionCredentials.["ConnectionToken"] ;;
  msgResp <- (if strict_eq_str (firstMessage req) "0"
              then send participantClient
                     (SendMessageCommand (sendMessageParams (content req) newToken))
              else Return JUndefined) ;;
  now <- DateNow Return ;;
  putResp <- send dynamoClient
               (PutItemCommand
                  (putParams (sessionItem (originatingNumber req) ContactId newToken now))) ;;
  Return (Created ContactId).

Definition Critical_Error (error : Error) : Result.t :=
  {| Result.statusCode := 500;
     Result.body := JSON_stringify (JObj [("error", JStr (message error))]) |}.

(** Lines 74-199: the [try] block and its [catch]. *)
Definition resolve (req : Request) : Async Result.t :=
  try_catch
    (dbResponse <- send dynamoClient (GetItemCommand (dbParams (originatingNumber req))) ;;
     reused <- reuse_session (content req) dbResponse ;;
     match reused with
     | inl result => Return result
     | inr previousContactId => create_session req previousContactId
     end)
    (fun error => Return (Critical_Error error)).

(** The request as the [try] block sees it, after line 69. *)
Definition defaulted (req : Request) : Request :=
  {| firstMessage := default_firstMessage (firstMessage req);
     originatingNumber := originatingNumber req;
     content := content req |}.

Definition handler (event : Event.t) : Async Result.t :=
  parsed <- parse_request event ;;
  match parsed with
  | inl result => Return result
  | inr req => resolve (defaulted req)
  end.

(** *** The paths through the handler

    Every invocation follows one of the paths below; each gives the calls
    made, the result returned and the table left, from the table found. *)

Definition lookup_call (req : Request) (o : Outcome) : Call :=
  (dynamoClient, GetItemCommand (dbParams (originatingNumber req)), o).

Definition send_call (content token : JsValue) (o : Outcome) : Call :=
  (participantClient, SendMessageCommand (sendMessageParams content token), o).

Definition start_call (req : Request) (previousContactId : JsValue) (o : Outcome) : Call :=
  (connectClient, StartChatContactCommand (startChatParams req previousContactId), o).

Definition streaming_call (started : list (string * JsValue)) (o : Outcome) : Call :=
  (connectClient, StartContactStreamingCommand (streamingParams (field started "ContactId")), o).

Definition connection_call (started : list (string * JsValue)) (o : Outcome) : Call :=
  (participantClient,
   CreateParticipantConnectionCommand (connectionParams (field started "ParticipantToken")), o).

(** [connectionResp.ConnectionCredentials.ConnectionToken] *)
Definition newToken (connected : list (string * JsValue)) : JsValue :=
  prop (field connected "ConnectionCredentials") "ConnectionToken".

(** Lines 164-172: the send on the new connection, made when [firstMessage === "0"]. *)
Definition first_send (req : Request) (connected : list (string * JsValue)) (o : Outcome)
  : list Call :=
  if strict_eq_str (firstMessage req) "0"
  then [send_call (content req) (newToken connected) o]
  else [].

Definition newItem (req : Request) (started connected : list (string * JsValue)) (now : Z)
  : JsValue :=
  sessionItem (originatingNumber req) (field started "ContactId") (newToken connected) now.

Definition put_call (req : Request) (started connected : list (string * JsValue)) (now : Z)
    (o : Outcome) : Call :=
  (dynamoClient, PutItemCommand (putParams (newItem req started connected now)), o).

(** The creation of a session (step 3 of the source), inside the [try]. *)
Inductive created (req : Request) (previousContactId : JsValue) (t : gmap string JsValue)
  : list Call -> Result.t -> gmap string JsValue -> Prop :=
| start_rejected err :
    created req previousContactId t
      [start_call req previousContactId (Rejected err)]
      (Critical_Error err) t
| streaming_rejected started err :
    created req previousContactId t
      [start_call req previousContactId (Resolved started);
       streaming_call started (Rejected err)]
      (Critical_Error err) t
| connection_rejected started streamed err :
    created req previousContactId t
      [start_call req previousContactId (Resolved started);
       streaming_call started (Resolved streamed);
       connection_call started (Rejected err)]
      (Critical_Error err) t
| credentials_missing started streamed connected :
    nullish (field connected "ConnectionCredentials") = true ->
    created req previousContactId t
      [start_call req previousContactId (Resolved started);
       streaming_call started (Resolved streamed);
       connection_call started (Resolved connected)]
      (Critical_Error (read_error (field connected "ConnectionCredentials") "ConnectionToken")) t
| first_send_rejected started streamed connected err :
    nullish (field connected "ConnectionCredentials") = false ->
    strict_eq_str (firstMessage req) "0" = true ->
    created req previousContactId t
      [start_call req previousContactId (Resolved started);
       streaming_call started (Resolved streamed);
       connection_call started (Resolved connected);
       send_call (content req) (newToken connected) (Rejected err)]
      (Critical_Error err) t
| put_rejected started streamed connected sent now err :
    nullish (field connected "ConnectionCredentials") = false ->
    created req previousContactId t
      ([start_call req previousContactId (Resolved started);
        streaming_call started (Resolved streamed);
        connection_call started (Resolved connected)]
       ++ first_send req connected (Resolved sent)
       ++ [put_call req started connected now (Rejected err)])
      (Critical_Error err) t
| saved started streamed connected sent now k :
    nullish (field connected "ConnectionCredentials") = false ->
    originatingNumber req = JStr k ->
    created req previousContactId t
      ([start_call req previousContactId (Resolved started);
        streaming_call started (Resolved streamed);
        connection_call started (Resolved connected)]
       ++ first_send req connected (Resolved sent)
       ++ [put_call req started connected now (Resolved [])])
      (Created (field started "ContactId"))
      (<[k := newItem req started connected now]> t).

(** [dbResponse.Item && dbResponse.Item.ConnectionToken] *)
Definition found (looked_up : list (string * JsValue)) : JsValue :=
  let Item := field looked_up "Item" in
  if truthy Item then prop Item "ConnectionToken" else Item.

Definition storedToken (looked_up : list (string * JsValue)) : JsValue :=
  prop (prop (field looked_up "Item") "ConnectionToken") "S".

(** [dbResponse.Item.ContactId], whose [S] is [previousContactId]. *)
Definition storedContactId (looked_up : list (string * JsValue)) : JsValue :=
  prop (field looked_up "Item") "ContactId".

(** The [try] block and its [catch] (steps 2 and 3 of the source). *)
Inductive resolved (req : Request) (t : gmap string JsValue)
  : list Call -> Result.t -> gmap string JsValue -> Prop :=
| lookup_rejected err :
    resolved req t [lookup_call req (Rejected err)] (Critical_Error err) t
| record_without_contact looked_up :
    truthy (found looked_up) = true ->
    nullish (storedContactId looked_up) = true ->
    resolved req t
      [lookup_call req (Resolved looked_up)]
      (Critical_Error (read_error (storedContactId looked_up) "S")) t
| reused looked_up sent :
    truthy (found looked_up) = true ->
    nullish (storedContactId looked_up) = false ->
    resolved req t
      [lookup_call req (Resolved looked_up);
       send_call (content req) (storedToken looked_up) (Resolved sent)]
      (Resumed (field sent "Id")) t
| reuse_failed looked_up err calls result t' :
    truthy (found looked_up) = true ->
    nullish (storedContactId looked_up) = false ->
    created req (prop (storedContactId looked_up) "S") t calls result t' ->
    resolved req t
      (lookup_call req (Resolved looked_up)
       :: send_call (content req) (storedToken looked_up) (Rejected err)
       :: calls)
      result t'
| no_session looked_up calls result t' :
    truthy (found looked_up) = false ->
    created req JNull t calls result t' ->
    resolved req t (lookup_call req (Resolved looked_up) :: calls) result t'.

(** The whole handler. *)
Inductive handled (event : Event.t) (t : gmap string JsValue)
  : list Call -> Completion Result.t -> gmap string JsValue -> Prop :=
| parse_threw e :
    parse_request event = Throw e ->
    handled event t [] (Abrupt e) t
| validation_failed :
    parse_request event = Return (inl Missing_data) ->
    handled event t [] (Normal Missing_data) t
| validated req calls result t' :
    parse_request event = Return (inr req) ->
    resolved (defaulted req) t calls result t' ->
    handled event t calls (Normal result) t'.

End Handler.

(** ** What a caller and the claims observe *)

(** [JSON.parse(result.body).key]: a property of the value a body serialises. *)
Definition body_prop (result : Result.t) (key : string) : JsValue :=
  match Result.body result with
  | JSON_stringify v => prop v key
  | Text _ => JUndefined
  end.

(** The send of the reuse attempt (line 95) is the second call of an
    invocation; the send on a new connection (line 165) comes fifth or later. *)
Definition reuse_send (i : nat) (command : Command) : bool :=
  match i, command with
  | 1%nat, SendMessageCommand _ => true
  | _, _ => false
  end.

(** ** A concrete world

    The scenarios of the specification: the number [+640000001], stored
    sessions whose token is live or dead, services that can be taken down
    one by one. *)
Module Sample.

Definition dq : string := String (Ascii.ascii_of_nat 34) EmptyString.

(** [{"k1":"v1","k2":"v2",...}] *)
Fixpoint members (kvs : list (string * string)) : string :=
  match kvs with
  | [] => EmptyString
  | [(k, v)] => dq ++ k ++ dq ++ ":" ++ dq ++ v ++ dq
  | (k, v) :: rest => dq ++ k ++ dq ++ ":" ++ dq ++ v ++ dq ++ "," ++ members rest
  end.

Definition json_text (kvs : list (string * string)) : string := "{" ++ members kvs ++ "}".

Definition json_value (kvs : list (string * string)) : JsValue :=
  JObj (map (fun kv => (fst kv, JStr (snd kv))) kvs).

Definition salesforce_first : list (string * string) :=
  [("firstMessage", "0"); ("originatingNumber", "+640000001"); ("content", "Hi")].

Definition salesforce_agent : list (string * string) :=
  [("firstMessage", "1"); ("originatingNumber", "+640000001"); ("content", "Hello")].

Definition salesforce_no_number : list (string * string) :=
  [("firstMessage", "0"); ("content", "Hi")].

Definition modica_message : list (string * string) :=
  [("source", "+640000001"); ("destination", "+64210000000"); ("content", "Still here")].

Definition modica_no_destination : list (string * string) :=
  [("source", "+640000001"); ("content", "Still here")].

Definition SyntaxError : Error :=
  {| name := "SyntaxError"; message := "Unexpected end of JSON input" |}.

(** [JSON.parse] on the texts used below; every other text is refused, as
    ["{"] is by the real one. *)
Definition JSON_parse (text : string) : Completion JsValue :=
  match
    find (fun kvs => String.eqb text (json_text kvs))
      [salesforce_first; salesforce_agent; salesforce_no_number;
       modica_message; modica_no_destination]
  with
  | Some kvs => Normal (json_value kvs)
  | None =>
      if String.eqb text "{}" then Normal (JObj [])
      else if String.eqb text "null" then Normal JNull
      else Abrupt SyntaxError
  end.

(** [parseInt] on an unset variable is [NaN]; the sample sets none. *)
Definition parseInt (v : JsValue) : option Z := None.

Definition process_env : ProcessEnv :=
  {| DYNAMO_TABLE_NAME := Some "Sessions";
     CONNECT_INSTANCE_ID := Some "instance-1";
     CONTACT_FLOW_ID := Some "flow-1";
     SNS_STREAMING_ARN := Some "arn:aws:sns:streaming";
     SESSION_TTL_HOURS := None |}.

(** The state of the services: the connection tokens that still work, and
    the operations that are down. *)
Record Services : Type := { live : list string; down : list string }.

Definition is_in (x : string) (l : list string) : bool := existsb (String.eqb x) l.

Definition AccessDeniedException : Error :=
  {| name := "AccessDeniedException"; message := "Access denied" |}.

Definition InternalServiceException : Error :=
  {| name := "InternalServiceException"; message := "Service unavailable" |}.

Definition answer (s : Services) (operation : string) (output : list (string * JsValue)) : Outcome :=
  if is_in operation (down s) then Rejected InternalServiceException else Resolved output.

Definition service (s : Services) (command : Command) : Outcome * Services :=
  match command with
  | SendMessageCommand input =>
      match prop input "ConnectionToken" with
      | JStr token =>
          if is_in token (live s)
          then (Resolved [("Id", JStr "m-1")], s)
          else (Rejected AccessDeniedException, s)
      | _ => (Rejected AccessDeniedException, s)
      end
  | StartChatContactCommand _ =>
      (answer s "StartChatContact"
         [("ContactId", JStr "c-2"); ("ParticipantToken", JStr "pt-2")], s)
  | StartContactStreamingCommand _ =>
      (answer s "StartContactStreaming" [("StreamingId", JStr "s-2")], s)
  | CreateParticipantConnectionCommand _ =>
      (answer s "CreateParticipantConnection"
         [("ConnectionCredentials", JObj [("ConnectionToken", JStr "tok-2")])], s)
  | _ => (Rejected InternalServiceException, s)
  end.

Definition dynamo_fault (s : Services) (command : Command) : option Error * Services :=
  match command with
  | GetItemCommand _ =>
      (if is_in "GetItem" (down s) then Some InternalServiceException else None, s)
  | PutItemCommand _ =>
      (if is_in "PutItem" (down s) then Some InternalServiceException else None, s)
  | _ => (None, s)
  end.

Definition clock (s : Services) : Z := 1700000000000.

Definition handler : Event.t -> Async Result.t := handler JSON_parse parseInt process_env.

Definition invoke (event : Event.t) (w : World Services) : Run Services Result.t :=
  run service dynamo_fault clock (handler event) w.

Definition event (path : string) (kvs : list (string * string)) : Event.t :=
  {| Event.rawPath := path; Event.body := Some (json_text kvs) |}.

(** The record of an earlier session [c-1] with token [tok-1]. *)
Definition stored : JsValue :=
  JObj [("originatingNumber", JObj [("S", JStr "+640000001")]);
        ("ContactId", JObj [("S", JStr "c-1")]);
        ("ConnectionToken", JObj [("S", JStr "tok-1")]);
        ("expiryDateTime", JObj [("N", JStr "1700000000")])].

(** A record that has a contact id and no connection token. *)
Definition stored_without_token : JsValue :=
  JObj [("originatingNumber", JObj [("S", JStr "+640000001")]);
        ("ContactId", JObj [("S", JStr "c-1")])].

Definition world (items : list JsValue) (live down : list string) : World Services :=
  {| table := list_to_map (map (fun item => ("+640000001", item)) items);
     services := {| live := live; down := down |} |}.

(** The scenarios. *)
Definition first_message : Event.t := event "/salesforce" salesforce_first.
Definition agent_message : Event.t := event "/salesforce" salesforce_agent.
Definition still_here : Event.t := event "/modica" modica_message.
Definition no_number : Event.t := event "/salesforce" salesforce_no_number.
Definition broken_body : Event.t := {| Event.rawPath := "/other"; Event.body := Some "{" |}.

(** The stored token works. *)
Definition live_session : World Services := world [stored] ["tok-1"] [].

(** The stored token is dead; everything else works. *)
Definition stale_session : World Services := world [stored] ["tok-2"] [].

(** The stored token is dead and so is the token of any new connection. *)
Definition dead_end : World Services := world [stored] [] [].

(** The stored token is dead and streaming is down. *)
Definition no_streaming : World Services := world [stored] ["tok-2"] ["StartContactStreaming"].

(** The record has no connection token. *)
Definition token_less : World Services := world [stored_without_token] ["tok-2"] [].

(** No record for the number; everything works. *)
Definition new_number : World Services := world [] ["tok-2"] [].

(** The record holds an empty contact id and a dead token. *)
Definition stored_empty_contact : JsValue :=
  JObj [("originatingNumber", JObj [("S", JStr "+640000001")]);
        ("ContactId", JObj [("S", JStr EmptyString)]);
        ("ConnectionToken", JObj [("S", JStr "tok-1")])].

Definition empty_contact : World Services := world [stored_empty_contact] ["tok-2"] [].

Definition null_body : Event.t := {| Event.rawPath := "/salesforce"; Event.body := Some "null" |}.

(** Services that stay as [live_session] has them, whatever is asked. *)
Definition steady_service (s : unit) (command : Command) : Outcome * unit :=
  (fst (service (services live_session) command), tt).

Definition steady_fault (s : unit) (command : Command) : option Error * unit :=
  (fst (dynamo_fault (services live_session) command), tt).

Definition steady_clock (s : unit) : Z := 1700000000000.

Definition steady_world : World unit := {| table := table live_session; services := tt |}.

End Sample.

(** ** The numbers of the expiry *)

(** The source computes the expiry in binary64 and prints it with
    [Number.prototype.toString]; [expirationTime] computes it in [Z] and
    [sessionItem] prints it with [pretty]. An integer of magnitude at most
    2^53 is a binary64 number, and a sum, a product or the floor of a
    quotient by 1000 of such integers is computed exactly when it is such an
    integer itself; its [toString] is then its decimal numeral. *)
Definition safe_integer (z : Z) : bool := Z.abs z <=? 2 ^ 53.

(** The clock reading and the time-to-live for which the two computations of
    the expiry agree. [Date.now()] is at most 8.64e15 in magnitude, so that
    the first condition always holds; the others fail only for a
    [SESSION_TTL_HOURS] of some 10^12 hours or more. *)
Definition exact_expiry (now ttlHours : Z) : bool :=
  safe_integer now && safe_integer (ttlHours * 3600)
  && safe_integer (now / 1000 + ttlHours * 3600).

(** ** The order of the calls *)

(** The steps of the handler, by the command each one sends. *)
Inductive Step : Type := Lookup | Send | StartChat | Streaming | Connection | Write.

Definition step_of (command : Command) : Step :=
  match command with
  | GetItemCommand _ => Lookup
  | PutItemCommand _ => Write
  | SendMessageCommand _ => Send
  | StartChatContactCommand _ => StartChat
  | StartContactStreamingCommand _ => Streaming
  | CreateParticipantConnectionCommand _ => Connection
  end.

Definition steps (calls : list Call) : list Step :=
  map (fun call => step_of (snd (fst call))) calls.

(** The source from line 82 to line 192, top to bottom: the send of line 95
    is there when the reuse is attempted, the send of line 165 when the
    message is a first message. *)
Definition order (reuse first : bool) : list Step :=
  ([Lookup] ++ (if reuse then [Send] else [])
   ++ [StartChat; Streaming; Connection]
   ++ (if first then [Send] else [])
   ++ [Write])%list.

Section Again.

Variable JSON_parse : string -> Completion JsValue.
Variable parseInt : JsValue -> option Z.
Variable process_env : ProcessEnv.
Context {W : Type}.
Variable service : W -> Command -> Outcome * W.
Variable dynamo_fault : W -> Command -> option Error * W.
Variable clock : W -> Z.

(** The world after [n] invocations in a row for the same event. *)
Fixpoint invocations (n : nat) (event : Event.t) (w : World W) : World W :=
  match n with
  | O => w
  | S n =>
      invocations n event
        (final (run service dynamo_fault clock
                  (handler JSON_parse parseInt process_env event) w))
  end.

(** The world that a list of calls leaves behind: the calls act on the world
    one after the other. [world_after (take i calls) w] is the world in which
    the call of index [i] is performed. *)
Definition world_after (calls : list Call) (w : World W) : World W :=
  fold_left (fun w call => snd (perform service dynamo_fault w (snd (fst call)))) calls w.

End Again.

(** ** More of the concrete world *)
Module Scenario.

(** A record whose connection token is the empty string. *)
Definition stored_empty_token : JsValue :=
  JObj [("originatingNumber", JObj [("S", JStr "+640000001")]);
        ("ContactId", JObj [("S", JStr "c-1")]);
        ("ConnectionToken", JObj [("S", JStr EmptyString)])].

Definition empty_token : World Sample.Services :=
  Sample.world [stored_empty_token] ["tok-2"] [].

(** A record that has a connection token and no contact id. *)
Definition stored_without_contact : JsValue :=
  JObj [("originatingNumber", JObj [("S", JStr "+640000001")]);
        ("ConnectionToken", JObj [("S", JStr "tok-1")])].

Definition without_contact : World unit :=
  {| table := list_to_map [("+640000001", stored_without_contact)]; services := tt |}.

(** A participant service whose connections come without credentials. *)
Definition service_without_credentials (s : Sample.Services) (command : Command)
  : Outcome * Sample.Services :=
  match command with
  | CreateParticipantConnectionCommand _ => (Resolved [("Websocket", JNull)], s)
  | _ => Sample.service s command
  end.

(** A time-to-live of two hours, read by a [parseInt] that knows "2". *)
Definition two_hours : ProcessEnv :=
  {| DYNAMO_TABLE_NAME := Some "Sessions";
     CONNECT_INSTANCE_ID := Some "instance-1";
     CONTACT_FLOW_ID := Some "flow-1";
     SNS_STREAMING_ARN := Some "arn:aws:sns:streaming";
     SESSION_TTL_HOURS := Some "2" |}.

Definition parseInt (v : JsValue) : option Z :=
  match v with
  | JStr s => if String.eqb s "2" then Some 2 else None
  | _ => None
  end.

(** The record of another number, and a table that holds it next to the
    record of [Sample.stale_session]. *)
Definition stored_elsewhere : JsValue :=
  JObj [("originatingNumber", JObj [("S", JStr "+640000002")]);
        ("ContactId", JObj [("S", JStr "c-9")]);
        ("ConnectionToken", JObj [("S", JStr "tok-9")]);
        ("expiryDateTime", JObj [("N", JStr "1700000900")])].

Definition two_numbers : World Sample.Services :=
  {| table := <["+640000002" := stored_elsewhere]> (table Sample.stale_session);
     services := services Sample.stale_session |}.

End Scenario.

(** * Properties *)

(** ** Property reads *)

Lemma get_prop_throw (v : JsValue) (key : string) :
  nullish v = true -> get_prop v key = Throw (read_error v key).
Proof. intros H. unfold get_prop. now rewrite H. Qed.

Lemma get_prop_return (v : JsValue) (key : string) :
  nullish v = false -> get_prop v key = Return (prop v key).
Proof. intros H. unfold get_prop. now rewrite H. Qed.

Lemma truthy_not_nullish (v : JsValue) : truthy v = true -> nullish v = false.
Proof. destruct v; simpl; congruence. Qed.

Lemma key_of_sessionItem parseInt process_env (number ContactId token : JsValue) (now : Z) :
  key_of (sessionItem parseInt process_env number ContactId token now)
  = match number with JStr k => Some k | _ => None end.
Proof. reflexivity. Qed.

Lemma key_of_newItem parseInt process_env (req : Request) started connected (now : Z) (k : string) :
  key_of (newItem parseInt process_env req started connected now) = Some k ->
  originatingNumber req = JStr k.
Proof.
  unfold newItem. rewrite key_of_sessionItem.
  destruct (originatingNumber req); congruence.
Qed.

Lemma prop_putParams process_env (Item : JsValue) :
  prop (putParams process_env Item) "Item" = Item.
Proof. reflexivity. Qed.

(** ** Every invocation follows one of the paths *)

Section Invocations.

Variable JSON_parse : string -> Completion JsValue.
Variable parseInt : JsValue -> option Z.
Variable process_env : ProcessEnv.
Context {S : Type}.
Variable service : S -> Command -> Outcome * S.
Variable dynamo_fault : S -> Command -> option Error * S.
Variable clock : S -> Z.

Local Abbreviation performs := (perform service dynamo_fault).
Local Abbreviation runs := (run service dynamo_fault clock).
Local Abbreviation creates := (created parseInt process_env).
Local Abbreviation resolves := (resolved parseInt process_env).
Local Abbreviation handles := (handled JSON_parse parseInt process_env).

(** A call that is not a [PutItem] leaves the table as it is. *)
Lemma perform_reads (w w' : World S) (command : Command) (o : Outcome) :
  performs w command = (o, w') ->
  (forall input, command <> PutItemCommand input) ->
  table w' = table w.
Proof.
  intros H Hput. unfold perform in H.
  destruct command; try (destruct (service _ _); now inversion H).
  - destruct (dynamo_fault _ _) as [[err|] s]; now inversion H.
  - now destruct (Hput input).
Qed.

(** A [PutItem] that resolves has stored its item under the item's key; one
    that is rejected has stored nothing. *)
Lemma perform_put (w w' : World S) (input : JsValue) (o : Outcome) :
  performs w (PutItemCommand input) = (o, w') ->
  match o with
  | Resolved output =>
      output = [] /\
      exists k, key_of (prop input "Item") = Some k /\
                table w' = <[k := prop input "Item"]> (table w)
  | Rejected _ => table w' = table w
  end.
Proof.
  unfold perform, PutItem.
  destruct (dynamo_fault _ _) as [[err|] s]; [intros [= <- <-]; reflexivity|].
  destruct (key_of _) as [k|]; intros [= <- <-]; [|reflexivity].
  split; [reflexivity|]. now exists k.
Qed.

(** *** Running a computation, one step at a time *)

Lemma run_return {A : Type} (a : A) (w : World S) :
  runs (Return a) w = {| trace := []; completion := Normal a; final := w |}.
Proof. reflexivity. Qed.

Lemma run_throw {A : Type} (e : Error) (w : World S) :
  runs (@Throw A e) w = {| trace := []; completion := Abrupt e; final := w |}.
Proof. reflexivity. Qed.

Lemma run_await {A : Type} (client : Client) (command : Command) (k : Outcome -> Async A)
    (w : World S) :
  runs (Await client command k) w
  = after (client, command, fst (performs w command))
      (runs (k (fst (performs w command))) (snd (performs w command))).
Proof. simpl. now destruct (performs w command). Qed.

Lemma run_datenow {A : Type} (k : Z -> Async A) (w : World S) :
  runs (DateNow k) w = runs (k (clock (services w))) w.
Proof. reflexivity. Qed.

(** One awaited call: name its outcome and the world it leaves, and keep
    what it did to the table. *)
Ltac await E :=
  rewrite run_await;
  match goal with
  | |- context [perform _ _ ?w ?c] =>
      destruct (performs w c) as [[?output|?err] ?w] eqn:E; cbn [fst snd]
  end.

Ltac reads E :=
  let T := fresh "T" in
  pose proof (perform_reads _ _ _ _ E ltac:(intros ?; discriminate)) as T.

Ltac finish := cbn [bind try_catch]; rewrite ?run_return; cbn [after trace completion final].

Lemma put_rejected_sent req prev t started streamed connected sent now err :
  nullish (field connected "ConnectionCredentials") = false ->
  strict_eq_str (firstMessage req) "0" = true ->
  creates req prev t
    [start_call process_env req prev (Resolved started);
     streaming_call process_env started (Resolved streamed);
     connection_call started (Resolved connected);
     send_call (content req) (newToken connected) (Resolved sent);
     put_call parseInt process_env req started connected now (Rejected err)]
    (Critical_Error err) t.
Proof.
  intros Hc Hf.
  pose proof (put_rejected parseInt process_env req prev t started streamed connected sent now err Hc) as H.
  unfold first_send in H. now rewrite Hf in H.
Qed.

Lemma put_rejected_skipped req prev t started streamed connected now err :
  nullish (field connected "ConnectionCredentials") = false ->
  strict_eq_str (firstMessage req) "0" = false ->
  creates req prev t
    [start_call process_env req prev (Resolved started);
     streaming_call process_env started (Resolved streamed);
     connection_call started (Resolved connected);
     put_call parseInt process_env req started connected now (Rejected err)]
    (Critical_Error err) t.
Proof.
  intros Hc Hf.
  pose proof (put_rejected parseInt process_env req prev t started streamed connected [] now err Hc) as H.
  unfold first_send in H. now rewrite Hf in H.
Qed.

Lemma saved_sent req prev t started streamed connected sent now k :
  nullish (field connected "ConnectionCredentials") = false ->
  strict_eq_str (firstMessage req) "0" = true ->
  originatingNumber req = JStr k ->
  creates req prev t
    [start_call process_env req prev (Resolved started);
     streaming_call process_env started (Resolved streamed);
     connection_call started (Resolved connected);
     send_call (content req) (newToken connected) (Resolved sent);
     put_call parseInt process_env req started connected now (Resolved [])]
    (Created (field started "ContactId"))
    (<[k := newItem parseInt process_env req started connected now]> t).
Proof.
  intros Hc Hf Hk.
  pose proof (saved parseInt process_env req prev t started streamed connected sent now k Hc Hk) as H.
  unfold first_send in H. now rewrite Hf in H.
Qed.

Lemma saved_skipped req prev t started streamed connected now k :
  nullish (field connected "ConnectionCredentials") = false ->
  strict_eq_str (firstMessage req) "0" = false ->
  originatingNumber req = JStr k ->
  creates req prev t
    [start_call process_env req prev (Resolved started);
     streaming_call process_env started (Resolved streamed);
     connection_call started (Resolved connected);
     put_call parseInt process_env req started connected now (Resolved [])]
    (Created (field started "ContactId"))
    (<[k := newItem parseInt process_env req started connected now]> t).
Proof.
  intros Hc Hf Hk.
  pose proof (saved parseInt process_env req prev t started streamed connected [] now k Hc Hk) as H.
  unfold first_send in H. now rewrite Hf in H.
Qed.

Ltac put_tail E :=
  rewrite run_datenow; cbn [bind try_catch];
  rewrite run_await;
  match goal with
  | |- context [perform _ _ ?w ?c] =>
      destruct (performs w c) as [[?output|?err] ?w] eqn:E; cbn [fst snd]
  end;
  apply perform_put in E; rewrite ?prop_putParams in E; finish.

(** The creation of a session follows one of the paths of [created]. *)
Lemma run_created (req : Request) (previousContactId : JsValue) (w : World S) :
  let r := runs (try_catch (create_session parseInt process_env req previousContactId)
                   (fun error => Return (Critical_Error error))) w in
  exists result,
    completion r = Normal result /\
    creates req previousContactId (table w) (trace r) result (table (final r)).
Proof.
  intros r; subst r. unfold create_session. cbn [bind try_catch send].
  await E1; reads E1; cbn [bind try_catch get_prop nullish prop];
    [|finish; eexists; split; [reflexivity|]; rewrite T; constructor].
  await E2; reads E2; cbn [bind try_catch get_prop nullish prop];
    [|finish; eexists; split; [reflexivity|]; rewrite T0, T; constructor].
  await E3; reads E3; cbn [bind try_catch get_prop nullish prop];
    [|finish; eexists; split; [reflexivity|]; rewrite T1, T0, T; constructor].
  destruct (nullish (field output1 "ConnectionCredentials")) eqn:Hc;
    [rewrite (get_prop_throw _ _ Hc) | rewrite (get_prop_return _ _ Hc)];
    cbn [bind try_catch];
    [finish; eexists; split; [reflexivity|]; rewrite T1, T0, T; now constructor|].
  destruct (strict_eq_str (firstMessage req) "0") eqn:Hf; cbn [bind try_catch send].
  - await E4; reads E4; cbn [bind try_catch];
      [|finish; eexists; split; [reflexivity|]; rewrite T2, T1, T0, T; now constructor].
    put_tail E5; eexists; (split; [reflexivity|]).
    + destruct E5 as [-> (k & Hk & ->)]. rewrite T2, T1, T0, T.
      apply key_of_newItem in Hk. now apply saved_sent.
    + rewrite E5, T2, T1, T0, T. now apply put_rejected_sent.
  - put_tail E5; eexists; (split; [reflexivity|]).
    + destruct E5 as [-> (k & Hk & ->)]. rewrite T1, T0, T.
      apply key_of_newItem in Hk. now apply saved_skipped.
    + rewrite E5, T1, T0, T. now apply put_rejected_skipped.
Qed.

(** The [try] block follows one of the paths of [resolved]. *)
Lemma run_resolved (req : Request) (w : World S) :
  let r := runs (resolve parseInt process_env req) w in
  exists result,
    completion r = Normal result /\
    resolves req (table w) (trace r) result (table (final r)).
Proof.
  intros r; subst r. unfold resolve, reuse_session. cbn [bind try_catch send].
  await E0; reads E0; cbn [bind try_catch get_prop nullish prop];
    [|finish; eexists; split; [reflexivity|]; rewrite T; constructor].
  assert (Hnone : forall w1, table w1 = table w ->
            truthy (found output) = false ->
            let r := runs (try_catch (create_session parseInt process_env req JNull)
                             (fun error => Return (Critical_Error error))) w1 in
            exists result,
              completion (after (lookup_call process_env req (Resolved output)) r)
              = Normal result /\
              resolves req (table w)
                (trace (after (lookup_call process_env req (Resolved output)) r))
                result
                (table (final (after (lookup_call process_env req (Resolved output)) r)))).
  { intros w1 Hw1 Hfound r.
    destruct (run_created req JNull w1) as (result & Hr & Hcreated).
    exists result. cbn [after trace completion final]. split; [exact Hr|].
    rewrite Hw1 in Hcreated. now apply no_session. }
  unfold js_and. destruct (truthy (field output "Item")) eqn:Ht.
  - rewrite !(get_prop_return _ _ (truthy_not_nullish _ Ht)). cbn [bind try_catch].
    destruct (truthy (prop (field output "Item") "ConnectionToken")) eqn:Hf.
    + assert (Hfound : truthy (found output) = true) by (unfold found; now rewrite Ht).
      rewrite (get_prop_return _ _ (truthy_not_nullish _ Hf)). cbn [bind try_catch].
      destruct (nullish (prop (field output "Item") "ContactId")) eqn:Hc;
        [rewrite (get_prop_throw _ _ Hc) | rewrite (get_prop_return _ _ Hc)];
        cbn [bind try_catch send].
      * finish. eexists. split; [reflexivity|]. rewrite T. now constructor.
      * await E1; reads E1; cbn [bind try_catch get_prop nullish prop].
        -- finish. eexists. split; [reflexivity|]. rewrite T0, T. now constructor.
        -- destruct (run_created req (prop (prop (field output "Item") "ContactId") "S") w1)
             as (result & Hr & Hcreated).
           exists result. cbn [after trace completion final]. split; [exact Hr|].
           rewrite T0, T in Hcreated. now apply reuse_failed.
    + apply (Hnone w0); [exact T|]. unfold found. now rewrite Ht.
  - cbn [bind try_catch]. rewrite Ht.
    apply (Hnone w0); [exact T|]. unfold found. now rewrite Ht.
Qed.

(** [parse_request] awaits nothing: it throws, refuses the request or accepts it. *)
Lemma parse_request_cases (event : Event.t) :
  (exists e, parse_request JSON_parse event = Throw e) \/
  parse_request JSON_parse event = Return (inl Missing_data) \/
  (exists req, parse_request JSON_parse event = Return (inr req)).
Proof.
  unfold parse_request.
  assert (Hbody : forall parsedBody : JsValue,
    let k := fun parsedBody =>
      if String.eqb (Event.rawPath event) "/salesforce" then
        firstMessage <- parsedBody.["firstMessage"] ;;
        originatingNumber <- parsedBody.["originatingNumber"] ;;
        content <- parsedBody.["content"] ;;
        if negb (truthy originatingNumber) || negb (truthy firstMessage)
        then Return (inl Missing_data)
        else Return (inr {| firstMessage := firstMessage;
                            originatingNumber := originatingNumber;
                            content := content |})
      else if String.eqb (Event.rawPath event) "/modica" then
        originatingNumber <- parsedBody.["source"] ;;
        destinationNumber <- parsedBody.["destination"] ;;
        content <- parsedBody.["content"] ;;
        if negb (truthy originatingNumber) || negb (truthy destinationNumber)
        then Return (inl Missing_data)
        else Return (inr {| firstMessage := JUndefined;
                            originatingNumber := originatingNumber;
                            content := content |})
      else Return (inl Missing_data) in
    (exists e, k parsedBody = Throw e) \/
    k parsedBody = Return (inl Missing_data) \/
    (exists req, k parsedBody = Return (inr req))).
  { intros parsedBody k; subst k; cbv beta.
    destruct (String.eqb _ "/salesforce"); [|destruct (String.eqb _ "/modica")];
      try (right; left; reflexivity);
      (destruct (nullish parsedBody) eqn:N;
       [rewrite !(get_prop_throw _ _ N); left; eexists; reflexivity
       |rewrite !(get_prop_return _ _ N); cbn [bind];
        match goal with |- context [if ?b then _ else _] => destruct b end;
        [right; left; reflexivity | right; right; eexists; reflexivity]]). }
  destruct (parse_body JSON_parse (Event.body event)) as [parsedBody|e]; cbn [lift bind].
  - apply Hbody.
  - left. eexists. reflexivity.
Qed.

(** Every invocation follows one of the paths of [handled]. *)
Lemma run_handled (event : Event.t) (w : World S) :
  let r := runs (handler JSON_parse parseInt process_env event) w in
  handles event (table w) (trace r) (completion r) (table (final r)).
Proof.
  intros r; subst r. unfold handler.
  destruct (parse_request_cases event) as [(e & He) | [He | (req & He)]]; rewrite He;
    cbn [bind].
  - rewrite run_throw. now constructor.
  - rewrite run_return. now constructor.
  - destruct (run_resolved (defaulted req) w) as (result & Hr & Hres).
    rewrite Hr. eapply validated; eassumption.
Qed.


(** ** What the paths have in common *)

(** Take a path of [created] apart; the optional send is decided. *)
Ltac creation H :=
  inversion H; subst; clear H; unfold first_send in *;
  try match goal with
      | |- context [strict_eq_str ?a ?b] => destruct (strict_eq_str a b) eqn:?
      | _ : context [strict_eq_str ?a ?b] |- _ => destruct (strict_eq_str a b) eqn:?
      end;
  cbn [app] in *.

(** Find which call of a listed trace is meant. *)
Ltac position H :=
  repeat match type of H with
         | (_ :: _) !! ?i = Some _ => destruct i as [|i]; cbn [lookup list_lookup] in H
         | [] !! _ = Some _ => discriminate H
         end.

(** A creation begins with [StartChatContact]. *)
Lemma created_starts req prev t calls result t' :
  creates req prev t calls result t' ->
  exists o rest, calls = start_call process_env req prev o :: rest.
Proof. intros H. creation H; eexists _, _; reflexivity. Qed.

(** A rejected call of a creation is its last call, and its error is the
    one reported. *)
Lemma created_rejected_last req prev t calls result t' i client command err :
  creates req prev t calls result t' ->
  calls !! i = Some (client, command, Rejected err) ->
  length calls = Datatypes.S i /\ result = Critical_Error err.
Proof.
  intros H Hi.
  creation H; position Hi; try discriminate Hi; injection Hi as <- <- <-; now split.
Qed.

(** The write is the last call of a creation. *)
Lemma created_put_last req prev t calls result t' i client input o :
  creates req prev t calls result t' ->
  calls !! i = Some (client, PutItemCommand input, o) ->
  length calls = Datatypes.S i.
Proof.
  intros H Hi.
  creation H; position Hi; try discriminate Hi; reflexivity.
Qed.

(** A creation that does not end in the fatal error made every call, the
    write last, and stored the new session under the originating number. *)
Lemma created_saved req prev t calls result t' :
  creates req prev t calls result t' ->
  Result.statusCode result <> 500 ->
  exists started streamed connected sent now k,
    originatingNumber req = JStr k /\
    nullish (field connected "ConnectionCredentials") = false /\
    calls = ([start_call process_env req prev (Resolved started);
              streaming_call process_env started (Resolved streamed);
              connection_call started (Resolved connected)]
             ++ first_send req connected (Resolved sent)
             ++ [put_call parseInt process_env req started connected now (Resolved [])])%list /\
    result = Created (field started "ContactId") /\
    t' = <[k := newItem parseInt process_env req started connected now]> t.
Proof.
  intros H Hs.
  inversion H; subst; clear H; try (now destruct Hs).
  eexists _, _, _, _, _, _. repeat split; eassumption || reflexivity.
Qed.

(** A creation that ends in the fatal error leaves the table as it was. *)
Lemma created_fatal req prev t calls result t' :
  creates req prev t calls result t' ->
  Result.statusCode result = 500 ->
  t' = t.
Proof. intros H Hs. inversion H; subst; clear H; try reflexivity. discriminate Hs. Qed.

(** A creation leaves the table as it was or with the new session in it. *)
Lemma created_table req prev t calls result t' :
  creates req prev t calls result t' ->
  t' = t \/
  exists started connected now k,
    originatingNumber req = JStr k /\
    t' = <[k := newItem parseInt process_env req started connected now]> t.
Proof.
  intros H. inversion H; subst; clear H; try (now left).
  right. eexists _, _, _, _. split; eassumption || reflexivity.
Qed.

(** Once the participant connection is there, what comes next is decided
    by [firstMessage === "0"]: the send on that connection, or the write. *)
Lemma created_first_send req prev t calls result t' i client input connected :
  creates req prev t calls result t' ->
  calls !! i = Some (client, CreateParticipantConnectionCommand input, Resolved connected) ->
  nullish (field connected "ConnectionCredentials") = false ->
  i = 2%nat /\
  if strict_eq_str (firstMessage req) "0"
  then exists o, calls !! 3%nat = Some (send_call (content req) (newToken connected) o)
  else exists started now o,
         drop 3 calls = [put_call parseInt process_env req started connected now o].
Proof.
  intros H Hi Hc.
  creation H; position Hi; try discriminate Hi; simplify_eq;
    try congruence; (split; [reflexivity|]);
    repeat match goal with
           | E : strict_eq_str _ _ = _ |- _ => rewrite E; clear E
           end;
    try (eexists; reflexivity); try (eexists _, _, _; reflexivity).
Qed.

(** Take a path of [resolved] apart. *)
Ltac resolution H :=
  inversion H; subst; clear H; unfold lookup_call, send_call in *.

Local Abbreviation invoke event w :=
  (run service dynamo_fault clock (handler JSON_parse parseInt process_env event) w).

(** ** The properties of the specification *)

(** C10. When the body of the event is a non-empty string that [JSON.parse]
    refuses, the handler throws what [JSON.parse] threw: the parse comes
    before the validation and before the [try], so the invocation makes no
    call and returns no result, neither the 400 one nor the 500 one. *)
Theorem C10_unparsable_body_throws (event : Event.t) (s : string) (err : Error) (w : World S) :
  Event.body event = Some s ->
  s <> EmptyString ->
  JSON_parse s = Abrupt err ->
  invoke event w = {| trace := []; completion := Abrupt err; final := w |}.
Proof.
  intros Hbody Hs Hparse. unfold handler, parse_request, parse_body.
  rewrite Hbody. destruct (String.eqb_spec s EmptyString) as [->|_]; [now destruct Hs|].
  cbn [negb]. rewrite Hparse. reflexivity.
Qed.

(** C8, amended. When the body is absent, empty, or parses to a value other
    than [null], and a required field is missing (falsy) on the salesforce
    or the modica path, or when the body is absent, empty or parses and the
    path is neither, the handler returns the 400 result without having made
    any call: the table is not read, no service is called, nothing is
    written. *)
Theorem C8_validation_before_any_call (event : Event.t) (parsedBody : JsValue) (w : World S) :
  parse_body JSON_parse (Event.body event) = Normal parsedBody ->
  (Event.rawPath event = "/salesforce" /\
   nullish parsedBody = false /\
   (truthy (prop parsedBody "originatingNumber") = false \/
    truthy (prop parsedBody "firstMessage") = false)) \/
  (Event.rawPath event = "/modica" /\
   nullish parsedBody = false /\
   (truthy (prop parsedBody "source") = false \/
    truthy (prop parsedBody "destination") = false)) \/
  (Event.rawPath event <> "/salesforce" /\ Event.rawPath event <> "/modica") ->
  invoke event w = {| trace := []; completion := Normal Missing_data; final := w |}.
Proof.
  intros Hparse Hmissing. unfold handler, parse_request. rewrite Hparse. cbn [lift bind].
  destruct Hmissing as [(-> & N & Hm) | [(-> & N & Hm) | (H1 & H2)]].
  - cbn [String.eqb Ascii.eqb Bool.eqb]. rewrite !(get_prop_return _ _ N). cbn [bind].
    destruct Hm as [-> | ->]; cbn [negb orb]; rewrite ?orb_true_r; reflexivity.
  - cbn [String.eqb Ascii.eqb Bool.eqb]. rewrite !(get_prop_return _ _ N). cbn [bind].
    destruct Hm as [-> | ->]; cbn [negb orb]; rewrite ?orb_true_r; reflexivity.
  - destruct (String.eqb_spec (Event.rawPath event) "/salesforce"); [contradiction|].
    destruct (String.eqb_spec (Event.rawPath event) "/modica"); [contradiction|].
    reflexivity.
Qed.

(** C2. When the lookup resolves and the second call of the invocation, the
    send through the stored connection token, resolves too, the invocation
    is over: these are its only two calls (no contact is created, no
    streaming is started, no participant connection is created, nothing is
    written), the result is the [Resumed] one carrying the [Id] of the
    send, and the table is exactly as it was. The send is made because the
    record has a connection token, and it carries that token. *)
Theorem C2_successful_reuse_returns_immediately
    (event : Event.t) (w : World S) (lookup : Command) (looked_up : list (string * JsValue))
    (input : JsValue) (sent : list (string * JsValue)) (rest : list Call) :
  trace (invoke event w)
  = (dynamoClient, lookup, Resolved looked_up)
    :: (participantClient, SendMessageCommand input, Resolved sent)
    :: rest ->
  rest = [] /\
  truthy (found looked_up) = true /\
  (exists req,
      parse_request JSON_parse event = Return (inr req) /\
      input = sendMessageParams (content req) (storedToken looked_up)) /\
  completion (invoke event w) = Normal (Resumed (field sent "Id")) /\
  table (final (invoke event w)) = table w.
Proof.
  intros Htrace. pose proof (run_handled event w) as Hh. cbv zeta in Hh.
  rewrite Htrace in Hh. inversion Hh as [| |req calls result t' Hreq Hres]; subst; clear Hh.
  resolution Hres.
  - repeat split; try assumption; try reflexivity.
    exists req. split; [assumption|reflexivity].
  - match goal with H : creates _ _ _ _ _ _ |- _ =>
      apply created_starts in H; destruct H as (o & rest' & H) end.
    unfold start_call in *. discriminate.
Qed.

Lemma truthy_prop (v : JsValue) (key : string) : truthy (prop v key) = true -> truthy v = true.
Proof. destruct v; simpl; congruence. Qed.

(** One invocation on the reuse path, from what the world is like: the
    record is in the table, the table can be read, the token works. *)
Lemma reuse_once (event : Event.t) (req : Request) (k : string) (item : JsValue) (w : World S) :
  parse_request JSON_parse event = Return (inr req) ->
  originatingNumber req = JStr k ->
  table w !! k = Some item ->
  truthy (prop item "ConnectionToken") = true ->
  nullish (prop item "ContactId") = false ->
  (forall s input, fst (dynamo_fault s (GetItemCommand input)) = None) ->
  (forall s, exists sent,
      fst (service s (SendMessageCommand
                        (sendMessageParams (content req)
                           (prop (prop item "ConnectionToken") "S")))) = Resolved sent) ->
  exists calls messageId w',
    invoke event w
    = {| trace := calls; completion := Normal (Resumed messageId); final := w' |} /\
    table w' = table w.
Proof.
  intros Hreq Hk Hitem Htoken Hcontact Hstore Hsend.
  unfold handler. rewrite Hreq. cbn [bind]. unfold resolve, reuse_session.
  cbn [bind try_catch send defaulted originatingNumber content].
  rewrite run_await. unfold perform.
  specialize (Hstore (services w) (dbParams process_env (originatingNumber req))).
  destruct (dynamo_fault _ _) as [fault s1]. cbn [fst] in Hstore. subst fault.
  rewrite Hk. unfold GetItem, dbParams. cbn [prop field String.eqb Ascii.eqb Bool.eqb key_of].
  rewrite Hitem. cbn [fst snd bind try_catch get_prop nullish prop field
                        String.eqb Ascii.eqb Bool.eqb].
  unfold js_and. rewrite (truthy_prop _ _ Htoken).
  rewrite !(get_prop_return _ _ (truthy_not_nullish _ (truthy_prop _ _ Htoken))).
  cbn [bind try_catch]. rewrite Htoken.
  rewrite (get_prop_return _ _ (truthy_not_nullish _ Htoken)).
  rewrite (get_prop_return _ _ Hcontact).
  cbn [bind try_catch send]. rewrite run_await. unfold perform.
  destruct (Hsend s1) as (sent & Hsent). cbn [services].
  destruct (service s1 _) as [o s2]. cbn [fst] in Hsent. subst o.
  cbn [fst snd bind try_catch get_prop nullish prop]. rewrite run_return.
  eexists _, (field sent "Id"), _. split; reflexivity.
Qed.

(** C9. Take an originating number whose record is in the table, with a
    connection token through which sends succeed, and a table that can be
    read. Two invocations in a row for the same event both return the
    [Resumed] result (status code 200, status "Resumed"), and the table
    after each is the table before the first. *)
Theorem C9_reuse_is_idempotent
    (event : Event.t) (req : Request) (k : string) (item : JsValue) (w : World S) :
  parse_request JSON_parse event = Return (inr req) ->
  originatingNumber req = JStr k ->
  table w !! k = Some item ->
  truthy (prop item "ConnectionToken") = true ->
  nullish (prop item "ContactId") = false ->
  (forall s input, fst (dynamo_fault s (GetItemCommand input)) = None) ->
  (forall s, exists sent,
      fst (service s (SendMessageCommand
                        (sendMessageParams (content req)
                           (prop (prop item "ConnectionToken") "S")))) = Resolved sent) ->
  let first := invoke event w in
  let second := invoke event (final first) in
  exists result1 result2,
    completion first = Normal result1 /\
    completion second = Normal result2 /\
    Result.statusCode result1 = 200 /\
    Result.statusCode result2 = 200 /\
    body_prop result1 "status" = JStr "Resumed" /\
    body_prop result2 "status" = JStr "Resumed" /\
    table (final first) = table w /\
    table (final second) = table w.
Proof.
  intros Hreq Hk Hitem Htoken Hcontact Hstore Hsend first second.
  destruct (reuse_once event req k item w Hreq Hk Hitem Htoken Hcontact Hstore Hsend)
    as (calls1 & id1 & w1 & Hr1 & Ht1).
  fold first in Hr1.
  assert (Hitem' : table (final first) !! k = Some item).
  { rewrite Hr1. cbn [final]. now rewrite Ht1. }
  destruct (reuse_once event req k item (final first) Hreq Hk Hitem' Htoken Hcontact Hstore Hsend)
    as (calls2 & id2 & w2 & Hr2 & Ht2).
  fold second in Hr2.
  exists (Resumed id1), (Resumed id2).
  rewrite Hr2. rewrite Hr1 in Ht2 |- *. cbn [completion final] in *.
  repeat split; try assumption; try reflexivity. now rewrite Ht2.
Qed.

(** Every invocation follows a path: name its calls, its completion and
    the world it leaves, with the path [Hh] they follow. *)
Ltac paths event w Hh :=
  pose proof (run_handled event w) as Hh; cbv zeta in Hh;
  let r := fresh "r" in
  let Hr := fresh "Hr" in
  remember (invoke event w) as r eqn:Hr; clear Hr;
  destruct r as [calls completed w'];
  cbn [trace completion final] in *.

(** C5. Take any call of an invocation that was rejected. If it is the send
    of the reuse attempt, the error is caught and the handler goes on to
    create a contact: the next call is [StartChatContact]. Any other
    rejected call (the lookup, the contact creation, the streaming, the
    participant connection, the send on the new connection, the write) is
    the last call of the invocation (nothing is retried) and the handler
    returns status code 500 with the message of that error. *)
Theorem C5_only_the_reuse_failure_is_caught
    (event : Event.t) (w : World S) (i : nat) (client : Client) (command : Command)
    (err : Error) :
  trace (invoke event w) !! i = Some (client, command, Rejected err) ->
  if reuse_send i command
  then exists input o,
         trace (invoke event w) !! 2%nat
         = Some (connectClient, StartChatContactCommand input, o)
  else length (trace (invoke event w)) = Datatypes.S i /\
       completion (invoke event w)
       = Normal {| Result.statusCode := 500;
                   Result.body := JSON_stringify (JObj [("error", JStr (message err))]) |}.
Proof.
  intros Hi. paths event w Hh.
  inversion Hh as [e He| He|req ? result ? Hreq Hres]; subst; clear Hh;
    [discriminate Hi..|].
  resolution Hres.
  - position Hi; simplify_eq. cbn [reuse_send length]. now split.
  - position Hi; simplify_eq.
  - position Hi; simplify_eq.
  - match goal with H : creates _ _ _ _ _ _ |- _ => rename H into Hcr end.
    destruct i as [|[|i]]; cbn [lookup list_lookup] in Hi; simplify_eq.
    + destruct (created_starts _ _ _ _ _ _ Hcr) as (o & rest & ->).
      cbn. eexists _, _. reflexivity.
    + destruct (created_rejected_last _ _ _ _ _ _ _ _ _ _ Hcr Hi) as [Hlen ->].
      cbn [reuse_send length]. now rewrite Hlen.
  - match goal with H : creates _ _ _ _ _ _ |- _ => rename H into Hcr end.
    destruct i as [|i]; cbn [lookup list_lookup] in Hi; simplify_eq.
    destruct (created_rejected_last _ _ _ _ _ _ _ _ _ _ Hcr Hi) as [Hlen ->].
    destruct (created_starts _ _ _ _ _ _ Hcr) as (o & rest & ->).
    destruct i as [|i]; cbn [lookup list_lookup] in Hi.
    + unfold start_call in Hi. simplify_eq. cbn [reuse_send length] in *. now rewrite Hlen.
    + cbn [reuse_send length] in *. now rewrite Hlen.
Qed.

(** The [try] block: the fatal error leaves the table as it was. *)
Lemma resolved_fatal req t calls result t' :
  resolves req t calls result t' ->
  Result.statusCode result = 500 ->
  t' = t.
Proof.
  intros H Hs. inversion H; subst; clear H; try reflexivity;
    eapply created_fatal; eassumption.
Qed.

Lemma resolved_put_last req t calls result t' i client input o :
  resolves req t calls result t' ->
  calls !! i = Some (client, PutItemCommand input, o) ->
  length calls = Datatypes.S i.
Proof.
  intros H Hi. resolution H.
  - position Hi; simplify_eq.
  - position Hi; simplify_eq.
  - position Hi; simplify_eq.
  - destruct i as [|[|i]]; cbn [lookup list_lookup] in Hi; simplify_eq.
    cbn [length]. erewrite created_put_last; eauto.
  - destruct i as [|i]; cbn [lookup list_lookup] in Hi; simplify_eq.
    cbn [length]. erewrite created_put_last; eauto.
Qed.

Lemma resolved_table req t calls result t' :
  resolves req t calls result t' ->
  t' = t \/
  exists started connected now k,
    originatingNumber req = JStr k /\
    t' = <[k := newItem parseInt process_env req started connected now]> t.
Proof.
  intros H. inversion H; subst; clear H; try (now left);
    eapply created_table; eassumption.
Qed.

(** *** The write, and the reading of the clock before it *)

Local Abbreviation world_before i calls w := (world_after service dynamo_fault (take i calls) w).

Lemma world_after_cons (client : Client) (command : Command) (o : Outcome)
    (calls : list Call) (w w' : World S) :
  performs w command = (o, w') ->
  world_after service dynamo_fault ((client, command, o) :: calls) w
  = world_after service dynamo_fault calls w'.
Proof. intros H. unfold world_after. cbn [fold_left fst snd]. now rewrite H. Qed.

(** The write of a creation is performed in the world that the calls before
    it have left. Its item holds the contact id of the contact started, the
    token of the connection created, and the expiry computed from the clock
    as that world shows it: [Date.now()] is read between the last of these
    calls and the write. *)
Lemma run_created_write (req : Request) (previousContactId : JsValue) (w : World S)
    (i : nat) (client : Client) (input : JsValue) (o : Outcome) :
  let r := runs (try_catch (create_session parseInt process_env req previousContactId)
                   (fun error => Return (Critical_Error error))) w in
  trace r !! i = Some (client, PutItemCommand input, o) ->
  exists started connected,
    trace r !! 0%nat = Some (start_call process_env req previousContactId (Resolved started)) /\
    trace r !! 2%nat = Some (connection_call started (Resolved connected)) /\
    input = putParams process_env
              (newItem parseInt process_env req started connected
                 (clock (services (world_before i (trace r) w)))) /\
    performs (world_before i (trace r) w) (PutItemCommand input) = (o, final r) /\
    table (world_before i (trace r) w) = table w.
Proof.
  intros r; subst r. unfold create_session. cbn [bind try_catch send].
  await E1; reads E1; cbn [bind try_catch get_prop nullish prop];
    [|finish; intros Hi; position Hi; discriminate Hi].
  await E2; reads E2; cbn [bind try_catch get_prop nullish prop];
    [|finish; intros Hi; position Hi; discriminate Hi].
  await E3; reads E3; cbn [bind try_catch get_prop nullish prop];
    [|finish; intros Hi; position Hi; discriminate Hi].
  destruct (nullish (field output1 "ConnectionCredentials")) eqn:Hc;
    [rewrite (get_prop_throw _ _ Hc) | rewrite (get_prop_return _ _ Hc)];
    cbn [bind try_catch];
    [finish; intros Hi; position Hi; discriminate Hi|].
  destruct (strict_eq_str (firstMessage req) "0") eqn:Hf; cbn [bind try_catch send].
  - await E4; reads E4; cbn [bind try_catch];
      [|finish; intros Hi; position Hi; discriminate Hi].
    rewrite run_datenow; cbn [bind try_catch]. rewrite run_await.
    destruct (performs w3 _) as [o5 w5] eqn:E5; cbn [fst snd].
    destruct o5 as [out|err]; finish; intros Hi; position Hi; try discriminate Hi;
      injection Hi as <- <- <-; cbn [firstn];
      rewrite (world_after_cons _ _ _ _ _ _ E1), (world_after_cons _ _ _ _ _ _ E2),
        (world_after_cons _ _ _ _ _ _ E3), (world_after_cons _ _ _ _ _ _ E4);
      cbn [world_after fold_left];
      exists output, output1; (repeat split; [exact E5|congruence]).
  - rewrite run_datenow; cbn [bind try_catch]. rewrite run_await.
    destruct (performs w2 _) as [o5 w5] eqn:E5; cbn [fst snd].
    destruct o5 as [out|err]; finish; intros Hi; position Hi; try discriminate Hi;
      injection Hi as <- <- <-; cbn [firstn];
      rewrite (world_after_cons _ _ _ _ _ _ E1), (world_after_cons _ _ _ _ _ _ E2),
        (world_after_cons _ _ _ _ _ _ E3);
      cbn [world_after fold_left];
      exists output, output1; (repeat split; [exact E5|congruence]).
Qed.

(** The same for the [try] block: the calls of a creation come after the
    lookup and, when it is made, the reuse attempt. *)
Lemma run_resolved_write (req : Request) (w : World S)
    (i : nat) (client : Client) (input : JsValue) (o : Outcome) :
  let r := runs (resolve parseInt process_env req) w in
  trace r !! i = Some (client, PutItemCommand input, o) ->
  exists j previousContactId started connected,
    trace r !! j = Some (start_call process_env req previousContactId (Resolved started)) /\
    trace r !! Datatypes.S (Datatypes.S j) = Some (connection_call started (Resolved connected)) /\
    input = putParams process_env
              (newItem parseInt process_env req started connected
                 (clock (services (world_before i (trace r) w)))) /\
    performs (world_before i (trace r) w) (PutItemCommand input) = (o, final r) /\
    table (world_before i (trace r) w) = table w.
Proof.
  intros r; subst r. unfold resolve, reuse_session. cbn [bind try_catch send].
  await E0; reads E0; cbn [bind try_catch get_prop nullish prop];
    [|finish; intros Hi; position Hi; discriminate Hi].
  assert (Hcreate : forall previousContactId w1 i,
            table w1 = table w ->
            let r := runs (try_catch (create_session parseInt process_env req previousContactId)
                             (fun error => Return (Critical_Error error))) w1 in
            trace r !! i = Some (client, PutItemCommand input, o) ->
            exists started connected,
              trace r !! 0%nat
              = Some (start_call process_env req previousContactId (Resolved started)) /\
              trace r !! 2%nat = Some (connection_call started (Resolved connected)) /\
              input = putParams process_env
                        (newItem parseInt process_env req started connected
                           (clock (services (world_before i (trace r) w1)))) /\
              performs (world_before i (trace r) w1) (PutItemCommand input) = (o, final r) /\
              table (world_before i (trace r) w1) = table w).
  { intros prev w1 i' Hw1 r Hi; subst r.
    destruct (run_created_write req prev w1 i' client input o Hi)
      as (started & connected & H0 & H2 & Hinput & Hput & Ht).
    exists started, connected. repeat split; try assumption. congruence. }
  unfold js_and. destruct (truthy (field output "Item")) eqn:Ht.
  - rewrite !(get_prop_return _ _ (truthy_not_nullish _ Ht)). cbn [bind try_catch].
    destruct (truthy (prop (field output "Item") "ConnectionToken")) eqn:Hf.
    + rewrite (get_prop_return _ _ (truthy_not_nullish _ Hf)). cbn [bind try_catch].
      destruct (nullish (prop (field output "Item") "ContactId")) eqn:Hc;
        [rewrite (get_prop_throw _ _ Hc) | rewrite (get_prop_return _ _ Hc)];
        cbn [bind try_catch send].
      * finish. intros Hi; position Hi; discriminate Hi.
      * await E1; reads E1; cbn [bind try_catch get_prop nullish prop].
        -- finish. intros Hi; position Hi; discriminate Hi.
        -- cbn [after trace final].
           destruct i as [|[|i]]; cbn [lookup list_lookup firstn]; [discriminate..|].
           intros Hi.
           rewrite (world_after_cons _ _ _ _ _ _ E0), (world_after_cons _ _ _ _ _ _ E1).
           destruct (Hcreate _ w1 i ltac:(congruence) Hi)
             as (started & connected & H0 & H2 & Hinput & Hput & Hw).
           exists 2%nat. eexists _, started, connected.
           cbn [lookup list_lookup]. repeat split; eassumption.
    + cbn [after trace final].
      destruct i as [|i]; cbn [lookup list_lookup firstn]; [discriminate|].
      intros Hi. rewrite (world_after_cons _ _ _ _ _ _ E0).
      destruct (Hcreate _ w0 i T Hi)
        as (started & connected & H0 & H2 & Hinput & Hput & Hw).
      exists 1%nat. eexists _, started, connected.
      cbn [lookup list_lookup]. repeat split; eassumption.
  - cbn [bind try_catch]. rewrite Ht. cbn [after trace final].
    destruct i as [|i]; cbn [lookup list_lookup firstn]; [discriminate|].
    intros Hi. rewrite (world_after_cons _ _ _ _ _ _ E0).
    destruct (Hcreate _ w0 i T Hi)
      as (started & connected & H0 & H2 & Hinput & Hput & Hw).
    exists 1%nat. eexists _, started, connected.
    cbn [lookup list_lookup]. repeat split; eassumption.
Qed.

(** The same for the handler. *)
Lemma run_handled_write (event : Event.t) (w : World S)
    (i : nat) (client : Client) (input : JsValue) (o : Outcome) :
  let r := runs (handler JSON_parse parseInt process_env event) w in
  trace r !! i = Some (client, PutItemCommand input, o) ->
  exists req j previousContactId started connected,
    parse_request JSON_parse event = Return (inr req) /\
    trace r !! j
    = Some (start_call process_env (defaulted req) previousContactId (Resolved started)) /\
    trace r !! Datatypes.S (Datatypes.S j) = Some (connection_call started (Resolved connected)) /\
    input = putParams process_env
              (sessionItem parseInt process_env (originatingNumber req)
                 (field started "ContactId") (newToken connected)
                 (clock (services (world_before i (trace r) w)))) /\
    performs (world_before i (trace r) w) (PutItemCommand input) = (o, final r) /\
    table (world_before i (trace r) w) = table w.
Proof.
  intros r; subst r. unfold handler.
  destruct (parse_request_cases event) as [(e & He) | [He | (req & He)]]; rewrite He;
    cbn [bind].
  - rewrite run_throw. intros Hi; discriminate Hi.
  - rewrite run_return. intros Hi; discriminate Hi.
  - intros Hi.
    destruct (run_resolved_write (defaulted req) w i client input o Hi)
      as (j & prev & started & connected & Hj & Hj2 & Hinput & Hput & Hw).
    exists req, j, prev, started, connected. repeat split; assumption.
Qed.

(** A write that resolves is the write of a creation that succeeds. *)
Lemma created_put_resolved req prev t calls result t' i client input output :
  creates req prev t calls result t' ->
  calls !! i = Some (client, PutItemCommand input, Resolved output) ->
  Result.statusCode result = 200.
Proof.
  intros H Hi.
  creation H; position Hi; try discriminate Hi; reflexivity.
Qed.

Lemma resolved_put_resolved req t calls result t' i client input output :
  resolves req t calls result t' ->
  calls !! i = Some (client, PutItemCommand input, Resolved output) ->
  Result.statusCode result = 200.
Proof.
  intros H Hi. resolution H.
  - position Hi; simplify_eq.
  - position Hi; simplify_eq.
  - position Hi; simplify_eq.
  - destruct i as [|[|i]]; cbn [lookup list_lookup] in Hi; simplify_eq.
    eapply created_put_resolved; eassumption.
  - destruct i as [|i]; cbn [lookup list_lookup] in Hi; simplify_eq.
    eapply created_put_resolved; eassumption.
Qed.

(** A table that has changed was changed by the write, which resolved; the
    result is then the created one, with the contact id of the item. *)
Lemma created_written req prev t calls result t' :
  creates req prev t calls result t' ->
  t' = t \/
  exists i input,
    calls !! i = Some (dynamoClient, PutItemCommand input, Resolved []) /\
    length calls = Datatypes.S i /\
    result = Created (prop (prop (prop input "Item") "ContactId") "S").
Proof.
  intros H. creation H; try (now left); right;
    [exists 4%nat|exists 3%nat]; eexists; repeat split.
Qed.

Lemma resolved_written req t calls result t' :
  resolves req t calls result t' ->
  t' = t \/
  exists i input,
    calls !! i = Some (dynamoClient, PutItemCommand input, Resolved []) /\
    length calls = Datatypes.S i /\
    result = Created (prop (prop (prop input "Item") "ContactId") "S").
Proof.
  intros H. resolution H; try (now left);
    match goal with H : creates _ _ _ _ _ _ |- _ =>
      destruct (created_written _ _ _ _ _ _ H) as [->|(i & input & Hi & Hl & ->)]
    end; try (now left); right.
  - exists (Datatypes.S (Datatypes.S i)), input. cbn [lookup list_lookup length].
    repeat split; [exact Hi|now rewrite Hl].
  - exists (Datatypes.S i), input. cbn [lookup list_lookup length].
    repeat split; [exact Hi|now rewrite Hl].
Qed.

(** C6. An invocation that returns the 500 result leaves the table exactly
    as it found it: it has sent no write, or the one write it sent was
    rejected, and a write that the store rejects stores nothing (this is
    how [perform] has DynamoDB answer a [PutItem]). The write is the last
    call of any invocation that makes it. The table an invocation leaves is
    the table it found, or that table with one complete record put under
    the originating number by a write that resolved, after which the
    handler returns the created result. That record has the four
    attributes of lines 187-190: the number, the contact id that the
    [StartChatContact] of this invocation returned, the connection token
    that its [CreateParticipantConnection] returned, and an expiry, which
    is the numeral of the whole seconds of the clock, read when every call
    before the write has been answered, plus 3600 seconds for each hour of
    the time-to-live (24 when [parseInt] gives [NaN] or 0), as long as
    these numbers are within the range where the arithmetic of the source
    is exact. *)
Theorem C6_fatal_error_leaves_the_table (event : Event.t) (w : World S) :
  let r := invoke event w in
  (forall result,
      completion r = Normal result ->
      Result.statusCode result = 500 ->
      table (final r) = table w /\
      forall i client input o,
        trace r !! i = Some (client, PutItemCommand input, o) ->
        exists err, o = Rejected err) /\
  (forall i client input o,
      trace r !! i = Some (client, PutItemCommand input, o) ->
      length (trace r) = Datatypes.S i) /\
  (table (final r) = table w \/
   exists req k j starting started connecting connected i expiry,
     let record :=
       JObj [("originatingNumber", JObj [("S", JStr k)]);
             ("ContactId", JObj [("S", field started "ContactId")]);
             ("ConnectionToken",
              JObj [("S", prop (field connected "ConnectionCredentials") "ConnectionToken")]);
             ("expiryDateTime", JObj [("N", JStr expiry)])] in
     let now := clock (services (world_after service dynamo_fault (take i (trace r)) w)) in
     let ttl := match parseInt (env_value (SESSION_TTL_HOURS process_env)) with
                | Some n => if n =? 0 then 24 else n
                | None => 24
                end in
     parse_request JSON_parse event = Return (inr req) /\
     originatingNumber req = JStr k /\
     trace r !! j = Some (connectClient, StartChatContactCommand starting, Resolved started) /\
     trace r !! Datatypes.S (Datatypes.S j)
     = Some (participantClient, CreateParticipantConnectionCommand connecting,
             Resolved connected) /\
     trace r !! i
     = Some (dynamoClient,
             PutItemCommand (JObj [("TableName", env_value (DYNAMO_TABLE_NAME process_env));
                                   ("Item", record)]),
             Resolved []) /\
     length (trace r) = Datatypes.S i /\
     completion r = Normal (Created (field started "ContactId")) /\
     table (final r) = <[k := record]> (table w) /\
     (exact_expiry now ttl = true -> expiry = pretty (now / 1000 + ttl * 3600))).
Proof.
  intros r; subst r.
  pose proof (run_handled_write event w) as Hwrite. cbv zeta in Hwrite.
  paths event w Hh.
  inversion Hh as [e He| He|req ? result ? Hreq Hres]; subst; clear Hh.
  - split; [|split]; [now intros|intros ? ? ? ? Hi; discriminate Hi|now left].
  - split; [|split]; [|intros ? ? ? ? Hi; discriminate Hi|now left].
    intros result' [= <-] Hs. discriminate Hs.
  - split; [|split].
    + intros result' [= <-] Hs. split; [eapply resolved_fatal; eassumption|].
      intros i client input [output|err] Hi; [|now exists err].
      pose proof (resolved_put_resolved _ _ _ _ _ _ _ _ _ Hres Hi) as H200.
      rewrite Hs in H200. discriminate H200.
    + intros i client input o Hi. eapply resolved_put_last; eassumption.
    + destruct (resolved_written _ _ _ _ _ Hres)
        as [->|(i & input & Hi & Hlen & ->)]; [now left|right].
      destruct (Hwrite _ _ _ _ Hi)
        as (req' & j & prev & started & connected & Hreq' & Hj & Hj2 & Hinput & Hput & Ht).
      assert (req' = req) as -> by congruence.
      apply perform_put in Hput. destruct Hput as (_ & k & Hk & Htable).
      cbn [final] in Htable. rewrite Ht in Htable.
      rewrite Hinput, prop_putParams in Hk, Htable.
      rewrite key_of_sessionItem in Hk.
      destruct (originatingNumber req) as [| | | |number| |] eqn:Hnumber; try discriminate Hk.
      injection Hk as ->.
      exists req, k, j. eexists _, started, _, connected.
      exists i, (pretty (expirationTime parseInt process_env
                           (clock (services (world_after service dynamo_fault (take i calls) w))))).
      cbv zeta. repeat split; try assumption; try reflexivity.
      * exact Hj.
      * exact Hj2.
      * rewrite Hi. rewrite Hinput. reflexivity.
      * rewrite Hinput. reflexivity.
Qed.

(** C7, amended. Take an invocation that has created a contact and, for
    it, a participant connection with its credentials. What it does next
    is decided by the first-message flag after its default (line 69): when
    the flag is the string "0", the next call sends the content of the
    message through the token of the new connection; otherwise no send is
    made and the next call, the last one, is the write of the session. *)
Theorem C7_first_message_is_sent_on_the_new_connection
    (event : Event.t) (w : World S) (i : nat) (input : JsValue)
    (connected : list (string * JsValue)) :
  trace (invoke event w) !! i
  = Some (participantClient, CreateParticipantConnectionCommand input, Resolved connected) ->
  nullish (field connected "ConnectionCredentials") = false ->
  exists req,
    parse_request JSON_parse event = Return (inr req) /\
    if strict_eq_str (default_firstMessage (firstMessage req)) "0"
    then exists o,
           trace (invoke event w) !! Datatypes.S i
           = Some (participantClient,
                   SendMessageCommand (sendMessageParams (content req) (newToken connected)),
                   o)
    else exists item o,
           drop (Datatypes.S i) (trace (invoke event w))
           = [(dynamoClient, PutItemCommand (putParams process_env item), o)].
Proof.
  intros Hi Hc. paths event w Hh.
  inversion Hh as [e He| He|req ? result ? Hreq Hres]; subst; clear Hh;
    [discriminate Hi..|].
  exists req. split; [assumption|].
  change (default_firstMessage (firstMessage req)) with (firstMessage (defaulted req)).
  change (content req) with (content (defaulted req)).
  resolution Hres; try (position Hi; simplify_eq; fail);
    match goal with H : creates _ _ _ _ _ _ |- _ => rename H into Hcr end.
  - destruct i as [|[|i]]; cbn [lookup list_lookup] in Hi; simplify_eq.
    destruct (created_first_send _ _ _ _ _ _ _ _ _ _ Hcr Hi Hc) as [-> Hnext].
    cbn [lookup list_lookup drop].
    destruct (strict_eq_str _ _).
    + exact Hnext.
    + destruct Hnext as (started & now & o & ->). eexists _, _. reflexivity.
  - destruct i as [|i]; cbn [lookup list_lookup] in Hi; simplify_eq.
    destruct (created_first_send _ _ _ _ _ _ _ _ _ _ Hcr Hi Hc) as [-> Hnext].
    cbn [lookup list_lookup drop].
    destruct (strict_eq_str _ _).
    + exact Hnext.
    + destruct Hnext as (started & now & o & ->). eexists _, _. reflexivity.
Qed.

Lemma prop_startChatParams (req : Request) (previousContactId : JsValue) :
  prop (startChatParams process_env req previousContactId) "PersistentChat"
  = if truthy previousContactId then PersistentChat previousContactId else JUndefined.
Proof. unfold startChatParams. now destruct (truthy previousContactId). Qed.

(** C4, amended. Take the creation request of an invocation. Either the
    reuse of the stored session was attempted and failed just before it:
    then the request carries the rehydration specification, of type
    FROM_SEGMENT and pointing at the stored contact id, when that contact
    id is truthy, and none otherwise. Or the reuse path was not taken (the
    lookup found no record, or a record without a connection token): then
    the request carries no rehydration specification, whatever the record
    holds. *)
Theorem C4_rehydration_only_after_a_failed_reuse
    (event : Event.t) (w : World S) (i : nat) (input : JsValue) (o : Outcome) :
  trace (invoke event w) !! i = Some (connectClient, StartChatContactCommand input, o) ->
  exists lookup looked_up,
    trace (invoke event w) !! 0%nat = Some (dynamoClient, lookup, Resolved looked_up) /\
    ((i = 2%nat /\
      truthy (found looked_up) = true /\
      (exists sending err,
          trace (invoke event w) !! 1%nat
          = Some (participantClient, SendMessageCommand sending, Rejected err)) /\
      let previousContactId := prop (storedContactId looked_up) "S" in
      prop input "PersistentChat"
      = if truthy previousContactId
        then JObj [("RehydrationType", JStr "FROM_SEGMENT");
                   ("SourceContactId", previousContactId)]
        else JUndefined) \/
     (i = 1%nat /\
      truthy (found looked_up) = false /\
      prop input "PersistentChat" = JUndefined)).
Proof.
  intros Hi. paths event w Hh.
  inversion Hh as [e He| He|req ? result ? Hreq Hres]; subst; clear Hh;
    [discriminate Hi..|].
  resolution Hres; try (position Hi; simplify_eq; fail);
    match goal with H : creates _ _ _ _ _ _ |- _ => rename H into Hcr end.
  - eexists _, _. split; [reflexivity|]. left.
    assert (i = 2%nat /\ input = startChatParams process_env (defaulted req)
                                   (prop (storedContactId looked_up) "S")) as [-> ->].
    { destruct i as [|[|i]]; cbn [lookup list_lookup] in Hi; simplify_eq.
      creation Hcr; position Hi; unfold start_call, streaming_call, connection_call,
        send_call, put_call in *; simplify_eq; now split. }
    split; [reflexivity|]. split; [assumption|]. split; [eexists _, _; reflexivity|].
    cbv zeta. rewrite prop_startChatParams. reflexivity.
  - eexists _, _. split; [reflexivity|]. right.
    assert (i = 1%nat /\ input = startChatParams process_env (defaulted req) JNull) as [-> ->].
    { destruct i as [|i]; cbn [lookup list_lookup] in Hi; simplify_eq.
      creation Hcr; position Hi; unfold start_call, streaming_call, connection_call,
        send_call, put_call in *; simplify_eq; now split. }
    split; [reflexivity|]. split; [assumption|].
    rewrite prop_startChatParams. reflexivity.
Qed.

(** C1, amended. Take an invocation whose lookup resolved and whose second
    call, the send through the stored connection token, was rejected, and
    let the stored contact id be a non-empty string. The next call is the
    creation of a chat contact, and its request carries the rehydration
    specification of type FROM_SEGMENT whose source is the stored contact
    id. When the invocation does not end in the fatal error, that is when
    no later call fails, the table it leaves is the table it found with
    the record of the originating number replaced by the new one: the
    contact id of the new contact and the token of the new connection. *)
Theorem C1_failed_reuse_rehydrates_then_overwrites
    (event : Event.t) (w : World S) (lookup : Command) (looked_up : list (string * JsValue))
    (sending : JsValue) (err : Error) (rest : list Call) (cid : string) :
  trace (invoke event w)
  = (dynamoClient, lookup, Resolved looked_up)
    :: (participantClient, SendMessageCommand sending, Rejected err)
    :: rest ->
  prop (storedContactId looked_up) "S" = JStr cid ->
  cid <> EmptyString ->
  (exists input o rest',
      rest = (connectClient, StartChatContactCommand input, o) :: rest' /\
      prop input "PersistentChat"
      = JObj [("RehydrationType", JStr "FROM_SEGMENT"); ("SourceContactId", JStr cid)]) /\
  (forall result,
      completion (invoke event w) = Normal result ->
      Result.statusCode result <> 500 ->
      exists k starting started connecting connected now,
        lookup = GetItemCommand (dbParams process_env (JStr k)) /\
        rest !! 0%nat = Some (connectClient, StartChatContactCommand starting, Resolved started) /\
        rest !! 2%nat
        = Some (participantClient, CreateParticipantConnectionCommand connecting,
                Resolved connected) /\
        table (final (invoke event w))
        = <[k := sessionItem parseInt process_env (JStr k)
                   (field started "ContactId") (newToken connected) now]> (table w)).
Proof.
  intros Htrace Hcid Hne. paths event w Hh.
  inversion Hh as [e He| He|req ? result ? Hreq Hres]; clear Hh; simplify_eq.
  resolution Hres; simplify_eq.
  - match goal with H : creates _ _ _ _ _ _ |- _ => rename H into Hcr end.
    rewrite Hcid in Hcr. split.
    + destruct (created_starts _ _ _ _ _ _ Hcr) as (o & rest' & ->).
      eexists _, _, _. split; [reflexivity|].
      rewrite prop_startChatParams. cbn [truthy].
      destruct (String.eqb_spec cid EmptyString); [contradiction|reflexivity].
    + intros result' [= <-] Hs.
      destruct (created_saved _ _ _ _ _ _ Hcr Hs)
        as (started & streamed & connected & sent & now & k & Hk & _ & -> & _ & ->).
      cbn [originatingNumber defaulted] in Hk.
      exists k. eexists _, started, _, connected, now.
      unfold newItem. cbn [originatingNumber defaulted]. rewrite Hk.
      repeat split; reflexivity.
  - match goal with H : creates _ _ _ _ _ _ |- _ => rename H into Hcr end.
    destruct (created_starts _ _ _ _ _ _ Hcr) as (o & rest' & Hr).
    unfold start_call in Hr. discriminate Hr.
Qed.

(** C3, amended. An invocation that returns a result other than the
    500 one returns one of three. When the request is refused by the
    validation, before any call: status code 400 and the body
    "Missing data". After a reuse, whose only calls are the lookup and the
    send: status code 200 and a body that serialises the status "Resumed"
    and the [messageId] of the send, and no [contactId]. After a creation:
    status code 200 and a body that serialises the status
    "Created entry in DDB" and the [contactId] of the contact that
    [StartChatContact] returned. *)
Theorem C3_results_of_a_successful_invocation
    (event : Event.t) (w : World S) (result : Result.t) :
  completion (invoke event w) = Normal result ->
  Result.statusCode result <> 500 ->
  (trace (invoke event w) = [] /\
   result = {| Result.statusCode := 400; Result.body := Text "Missing data" |}) \/
  (exists lookup looked_up sending sent,
      trace (invoke event w)
      = [(dynamoClient, lookup, Resolved looked_up);
         (participantClient, SendMessageCommand sending, Resolved sent)] /\
      result
      = {| Result.statusCode := 200;
           Result.body := JSON_stringify (JObj [("status", JStr "Resumed");
                                                ("messageId", field sent "Id")]) |}) \/
  (exists i starting started,
      trace (invoke event w) !! i
      = Some (connectClient, StartChatContactCommand starting, Resolved started) /\
      result
      = {| Result.statusCode := 200;
           Result.body := JSON_stringify (JObj [("status", JStr "Created entry in DDB");
                                                ("contactId", field started "ContactId")]) |}).
Proof.
  intros Hc Hs. paths event w Hh.
  inversion Hh as [e He| He|req ? result' ? Hreq Hres]; clear Hh; simplify_eq.
  { left. split; reflexivity. }
  right. resolution Hres; try (now destruct Hs).
  - left. eexists _, _, _, _. split; reflexivity.
  - match goal with H : creates _ _ _ _ _ _ |- _ => rename H into Hcr end.
    destruct (created_saved _ _ _ _ _ _ Hcr Hs)
      as (started & streamed & connected & sent & now & k & Hk & _ & -> & -> & _).
    right. exists 2%nat. eexists _, started. split; reflexivity.
  - match goal with H : creates _ _ _ _ _ _ |- _ => rename H into Hcr end.
    destruct (created_saved _ _ _ _ _ _ Hcr Hs)
      as (started & streamed & connected & sent & now & k & Hk & _ & -> & -> & _).
    right. exists 1%nat. eexists _, started. split; reflexivity.
Qed.

End Invocations.

(** * The properties on the concrete world *)

Lemma C10_witness :
  Sample.invoke Sample.broken_body Sample.live_session
  = {| trace := []; completion := Abrupt Sample.SyntaxError; final := Sample.live_session |}.
Proof.
  apply (C10_unparsable_body_throws Sample.JSON_parse Sample.parseInt Sample.process_env
           Sample.service Sample.dynamo_fault Sample.clock
           Sample.broken_body "{" Sample.SyntaxError Sample.live_session).
  - reflexivity.
  - discriminate.
  - reflexivity.
Defined.

Lemma C8_witness :
  Sample.invoke Sample.no_number Sample.live_session
  = {| trace := []; completion := Normal Missing_data; final := Sample.live_session |}.
Proof.
  apply (C8_validation_before_any_call Sample.JSON_parse Sample.parseInt Sample.process_env
           Sample.service Sample.dynamo_fault Sample.clock
           Sample.no_number (Sample.json_value Sample.salesforce_no_number)
           Sample.live_session).
  - vm_compute. reflexivity.
  - left. split; [reflexivity|]. split; [reflexivity|]. left. reflexivity.
Defined.

(** C8 as stated fails: a path that is neither, with a body that is not
    JSON, ends in the [SyntaxError] of the parse; no result is returned,
    so not the 400 one either. *)
Lemma C8_counterexample :
  Event.rawPath Sample.broken_body <> "/salesforce" /\
  Event.rawPath Sample.broken_body <> "/modica" /\
  completion (Sample.invoke Sample.broken_body Sample.live_session)
  = Abrupt Sample.SyntaxError /\
  ~ (exists result,
        completion (Sample.invoke Sample.broken_body Sample.live_session) = Normal result).
Proof.
  split; [discriminate|]. split; [discriminate|]. split; [reflexivity|].
  intros [result H]. discriminate H.
Qed.

Lemma C2_witness :
  trace (Sample.invoke Sample.still_here Sample.live_session)
  = [(dynamoClient,
      GetItemCommand (dbParams Sample.process_env (JStr "+640000001")),
      Resolved [("Item", Sample.stored)]);
     (participantClient,
      SendMessageCommand (sendMessageParams (JStr "Still here") (JStr "tok-1")),
      Resolved [("Id", JStr "m-1")])] /\
  completion (Sample.invoke Sample.still_here Sample.live_session)
  = Normal (Resumed (JStr "m-1")) /\
  table (final (Sample.invoke Sample.still_here Sample.live_session))
  = table Sample.live_session.
Proof.
  assert (Htrace :
    trace (Sample.invoke Sample.still_here Sample.live_session)
    = [(dynamoClient,
        GetItemCommand (dbParams Sample.process_env (JStr "+640000001")),
        Resolved [("Item", Sample.stored)]);
       (participantClient,
        SendMessageCommand (sendMessageParams (JStr "Still here") (JStr "tok-1")),
        Resolved [("Id", JStr "m-1")])]) by (vm_compute; reflexivity).
  destruct (C2_successful_reuse_returns_immediately
              Sample.JSON_parse Sample.parseInt Sample.process_env
              Sample.service Sample.dynamo_fault Sample.clock
              Sample.still_here Sample.live_session _ _ _ _ _ Htrace)
    as (_ & _ & _ & Hc & Ht).
  split; [exact Htrace|]. split; [exact Hc|exact Ht].
Defined.

Lemma C9_witness :
  let first :=
    run Sample.steady_service Sample.steady_fault Sample.steady_clock
      (Sample.handler Sample.still_here) Sample.steady_world in
  let second :=
    run Sample.steady_service Sample.steady_fault Sample.steady_clock
      (Sample.handler Sample.still_here) (final first) in
  exists result1 result2,
    completion first = Normal result1 /\
    completion second = Normal result2 /\
    Result.statusCode result1 = 200 /\
    Result.statusCode result2 = 200 /\
    body_prop result1 "status" = JStr "Resumed" /\
    body_prop result2 "status" = JStr "Resumed" /\
    table (final first) = table Sample.steady_world /\
    table (final second) = table Sample.steady_world.
Proof.
  apply (C9_reuse_is_idempotent Sample.JSON_parse Sample.parseInt Sample.process_env
           Sample.steady_service Sample.steady_fault Sample.steady_clock
           Sample.still_here
           {| firstMessage := JUndefined;
              originatingNumber := JStr "+640000001";
              content := JStr "Still here" |}
           "+640000001" Sample.stored Sample.steady_world).
  - vm_compute. reflexivity.
  - reflexivity.
  - vm_compute. reflexivity.
  - reflexivity.
  - reflexivity.
  - intros s input. reflexivity.
  - intros s. exists [("Id", JStr "m-1")]. vm_compute. reflexivity.
Defined.

(** The send of the reuse attempt is rejected and caught; the streaming of
    the new contact is rejected and fatal. *)
Lemma C5_witness :
  (exists input o,
      trace (Sample.invoke Sample.first_message Sample.no_streaming) !! 2%nat
      = Some (connectClient, StartChatContactCommand input, o)) /\
  length (trace (Sample.invoke Sample.first_message Sample.no_streaming)) = 4%nat /\
  completion (Sample.invoke Sample.first_message Sample.no_streaming)
  = Normal {| Result.statusCode := 500;
              Result.body :=
                JSON_stringify (JObj [("error", JStr "Service unavailable")]) |}.
Proof.
  split.
  - apply (C5_only_the_reuse_failure_is_caught
             Sample.JSON_parse Sample.parseInt Sample.process_env
             Sample.service Sample.dynamo_fault Sample.clock
             Sample.first_message Sample.no_streaming 1%nat participantClient
             (SendMessageCommand (sendMessageParams (JStr "Hi") (JStr "tok-1")))
             Sample.AccessDeniedException).
    vm_compute. reflexivity.
  - apply (C5_only_the_reuse_failure_is_caught
             Sample.JSON_parse Sample.parseInt Sample.process_env
             Sample.service Sample.dynamo_fault Sample.clock
             Sample.first_message Sample.no_streaming 3%nat connectClient
             (StartContactStreamingCommand (streamingParams Sample.process_env (JStr "c-2")))
             Sample.InternalServiceException).
    vm_compute. reflexivity.
Defined.

(** Streaming is down: the table is left as it was. Everything works: the
    record of the new session is the one in the table. *)
Lemma C6_witness :
  table (final (Sample.invoke Sample.first_message Sample.no_streaming))
  = table Sample.no_streaming /\
  table (final (Sample.invoke Sample.first_message Sample.stale_session))
  = <["+640000001" :=
        JObj [("originatingNumber", JObj [("S", JStr "+640000001")]);
              ("ContactId", JObj [("S", JStr "c-2")]);
              ("ConnectionToken", JObj [("S", JStr "tok-2")]);
              ("expiryDateTime", JObj [("N", JStr "1700086400")])]]>
      (table Sample.stale_session).
Proof.
  split.
  - apply (proj1 (C6_fatal_error_leaves_the_table
                    Sample.JSON_parse Sample.parseInt Sample.process_env
                    Sample.service Sample.dynamo_fault Sample.clock
                    Sample.first_message Sample.no_streaming))
      with (result := Critical_Error Sample.InternalServiceException).
    + vm_compute. reflexivity.
    + reflexivity.
  - destruct (proj2 (proj2 (C6_fatal_error_leaves_the_table
                              Sample.JSON_parse Sample.parseInt Sample.process_env
                              Sample.service Sample.dynamo_fault Sample.clock
                              Sample.first_message Sample.stale_session)))
      as [Hsame|(req & k & j & starting & started & connecting & connected & i & expiry & H)].
    + apply (f_equal (fun t => t !! "+640000001")) in Hsame.
      vm_compute in Hsame. discriminate Hsame.
    + cbv zeta in H.
      destruct H as (Hreq & Hk & Hj & Hj2 & Hi & Hlen & _ & Htable & Hexpiry).
      vm_compute in Hreq. injection Hreq as <-. cbn [originatingNumber] in Hk.
      injection Hk as <-.
      injection Hlen as <-.
      destruct j as [|[|[|[|[|[|j]]]]]]; try discriminate Hj; try discriminate Hj2.
      injection Hj as _ <-. injection Hj2 as _ <-.
      rewrite (Hexpiry eq_refl) in Htable.
      exact Htable.
Defined.

(** A first message of the customer is sent on the new connection. *)
Lemma C7_witness :
  exists o,
    trace (Sample.invoke Sample.first_message Sample.stale_session) !! 5%nat
    = Some (participantClient,
            SendMessageCommand (sendMessageParams (JStr "Hi") (JStr "tok-2")),
            o).
Proof.
  destruct (C7_first_message_is_sent_on_the_new_connection
              Sample.JSON_parse Sample.parseInt Sample.process_env
              Sample.service Sample.dynamo_fault Sample.clock
              Sample.first_message Sample.stale_session 4%nat
              (connectionParams (JStr "pt-2"))
              [("ConnectionCredentials", JObj [("ConnectionToken", JStr "tok-2")])])
    as (req & Hreq & Hnext).
  - vm_compute. reflexivity.
  - reflexivity.
  - vm_compute in Hreq. injection Hreq as <-. exact Hnext.
Defined.

(** C7 as stated fails: the contact [c-2] is created for a first message
    of the customer (the flag is "0"), the streaming is rejected, and the
    invocation ends there: no participant connection, no send. *)
Lemma C7_counterexample :
  let r := Sample.invoke Sample.first_message Sample.no_streaming in
  (exists req,
      parse_request Sample.JSON_parse Sample.first_message = Return (inr req) /\
      strict_eq_str (default_firstMessage (firstMessage req)) "0" = true) /\
  drop 2 (trace r)
  = [(connectClient,
      StartChatContactCommand
        (startChatParams Sample.process_env
           {| firstMessage := JStr "0";
              originatingNumber := JStr "+640000001";
              content := JStr "Hi" |}
           (JStr "c-1")),
      Resolved [("ContactId", JStr "c-2"); ("ParticipantToken", JStr "pt-2")]);
     (connectClient,
      StartContactStreamingCommand (streamingParams Sample.process_env (JStr "c-2")),
      Rejected Sample.InternalServiceException)] /\
  completion r = Normal (Critical_Error Sample.InternalServiceException).
Proof.
  cbv zeta. split; [eexists; split; [vm_compute; reflexivity|reflexivity]|].
  split; vm_compute; reflexivity.
Qed.

(** After the failed reuse the request carries the rehydration from [c-1]. *)
Lemma C4_witness :
  exists input o,
    trace (Sample.invoke Sample.first_message Sample.stale_session) !! 2%nat
    = Some (connectClient, StartChatContactCommand input, o) /\
    prop input "PersistentChat"
    = JObj [("RehydrationType", JStr "FROM_SEGMENT"); ("SourceContactId", JStr "c-1")].
Proof.
  eexists _, _. split; [vm_compute; reflexivity|].
  destruct (C4_rehydration_only_after_a_failed_reuse
              Sample.JSON_parse Sample.parseInt Sample.process_env
              Sample.service Sample.dynamo_fault Sample.clock
              Sample.first_message Sample.stale_session 2%nat
              (startChatParams Sample.process_env
                 {| firstMessage := JStr "0";
                    originatingNumber := JStr "+640000001";
                    content := JStr "Hi" |}
                 (JStr "c-1"))
              (Resolved [("ContactId", JStr "c-2"); ("ParticipantToken", JStr "pt-2")]))
    as (lookup & looked_up & Hlookup & [(_ & _ & _ & Hp) | (Hi & _)]).
  - vm_compute. reflexivity.
  - vm_compute in Hlookup. injection Hlookup as <- <-. exact Hp.
  - discriminate Hi.
Defined.

(** C4 as stated fails: the record holds the contact id [c-1] and no
    connection token, the reuse path is not taken, and the creation
    request carries no rehydration specification. *)
Lemma C4_counterexample :
  exists looked_up input o,
    trace (Sample.invoke Sample.agent_message Sample.token_less) !! 0%nat
    = Some (dynamoClient,
            GetItemCommand (dbParams Sample.process_env (JStr "+640000001")),
            Resolved looked_up) /\
    prop (storedContactId looked_up) "S" = JStr "c-1" /\
    trace (Sample.invoke Sample.agent_message Sample.token_less) !! 1%nat
    = Some (connectClient, StartChatContactCommand input, o) /\
    prop input "PersistentChat" = JUndefined.
Proof.
  eexists _, _, _. split; [vm_compute; reflexivity|].
  split; [reflexivity|]. split; [vm_compute; reflexivity|]. reflexivity.
Qed.

(** Scenario C of the specification: the stored token fails, a contact is
    created with the rehydration from [c-1], the record becomes [c-2] with
    [tok-2]. *)
Lemma C1_witness :
  (exists input o rest',
      drop 2 (trace (Sample.invoke Sample.first_message Sample.stale_session))
      = (connectClient, StartChatContactCommand input, o) :: rest' /\
      prop input "PersistentChat"
      = JObj [("RehydrationType", JStr "FROM_SEGMENT"); ("SourceContactId", JStr "c-1")]) /\
  exists now,
    table (final (Sample.invoke Sample.first_message Sample.stale_session))
    = <["+640000001" := sessionItem Sample.parseInt Sample.process_env
                          (JStr "+640000001") (JStr "c-2") (JStr "tok-2") now]>
        (table Sample.stale_session).
Proof.
  destruct (C1_failed_reuse_rehydrates_then_overwrites
              Sample.JSON_parse Sample.parseInt Sample.process_env
              Sample.service Sample.dynamo_fault Sample.clock
              Sample.first_message Sample.stale_session
              (GetItemCommand (dbParams Sample.process_env (JStr "+640000001")))
              [("Item", Sample.stored)]
              (sendMessageParams (JStr "Hi") (JStr "tok-1"))
              Sample.AccessDeniedException
              (drop 2 (trace (Sample.invoke Sample.first_message Sample.stale_session)))
              "c-1")
    as [Hstart Hsaved].
  - vm_compute. reflexivity.
  - reflexivity.
  - discriminate.
  - split; [exact Hstart|].
    destruct (Hsaved (Created (JStr "c-2")))
      as (k & starting & started & connecting & connected & now & Hk & H0 & H2 & Ht).
    + vm_compute. reflexivity.
    + discriminate.
    + injection Hk as <-.
      vm_compute in H0. injection H0 as _ <-.
      vm_compute in H2. injection H2 as _ <-.
      exists now. exact Ht.
Defined.

(** C1 as stated fails: the stored token fails, the contact [c-2] and its
    connection are created, the send on the new connection fails, and the
    record of the number is still the old one. *)
Lemma C1_counterexample :
  let r := Sample.invoke Sample.first_message Sample.dead_end in
  trace r !! 0%nat
  = Some (dynamoClient,
          GetItemCommand (dbParams Sample.process_env (JStr "+640000001")),
          Resolved [("Item", Sample.stored)]) /\
  trace r !! 1%nat
  = Some (participantClient,
          SendMessageCommand (sendMessageParams (JStr "Hi") (JStr "tok-1")),
          Rejected Sample.AccessDeniedException) /\
  (exists input,
      trace r !! 2%nat
      = Some (connectClient, StartChatContactCommand input,
              Resolved [("ContactId", JStr "c-2"); ("ParticipantToken", JStr "pt-2")])) /\
  completion r = Normal (Critical_Error Sample.AccessDeniedException) /\
  table (final r) !! "+640000001" = Some Sample.stored.
Proof.
  cbv zeta. split; [vm_compute; reflexivity|]. split; [vm_compute; reflexivity|].
  split; [eexists; vm_compute; reflexivity|]. split; vm_compute; reflexivity.
Qed.

Lemma C3_witness :
  completion (Sample.invoke Sample.still_here Sample.live_session)
  = Normal {| Result.statusCode := 200;
              Result.body := JSON_stringify (JObj [("status", JStr "Resumed");
                                                   ("messageId", JStr "m-1")]) |}.
Proof.
  destruct (C3_results_of_a_successful_invocation
              Sample.JSON_parse Sample.parseInt Sample.process_env
              Sample.service Sample.dynamo_fault Sample.clock
              Sample.still_here Sample.live_session (Resumed (JStr "m-1")))
    as [(_ & Hresult)
       |[(lookup & looked_up & sending & sent & Htrace & Hresult)
        |(i & starting & started & Hi & Hresult)]].
  - vm_compute. reflexivity.
  - discriminate.
  - discriminate Hresult.
  - vm_compute. reflexivity.
  - discriminate Hresult.
Defined.

(** C3 as stated fails: the result of a reuse has no [contactId], and the
    status of a creation is not the string "Created". *)
Lemma C3_counterexample :
  (exists result,
      completion (Sample.invoke Sample.still_here Sample.live_session) = Normal result /\
      Result.statusCode result = 200 /\
      body_prop result "status" = JStr "Resumed" /\
      body_prop result "contactId" = JUndefined) /\
  (exists result,
      completion (Sample.invoke Sample.first_message Sample.stale_session) = Normal result /\
      Result.statusCode result = 200 /\
      body_prop result "status" = JStr "Created entry in DDB" /\
      body_prop result "status" <> JStr "Created").
Proof.
  split.
  - eexists. split; [vm_compute; reflexivity|]. repeat split; reflexivity.
  - eexists. split; [vm_compute; reflexivity|]. repeat split; try reflexivity. discriminate.
Qed.

(** ** The scenarios of the specification, run *)

(** Scenario A: no record; a contact is created without rehydration, the
    message is sent on the new connection, the session is stored. *)
Example scenario_A :
  let r := Sample.invoke Sample.first_message Sample.new_number in
  map (fun call => snd (fst call)) (trace r)
  = [GetItemCommand (dbParams Sample.process_env (JStr "+640000001"));
     StartChatContactCommand
       (JObj [("InstanceId", JStr "instance-1");
              ("ContactFlowId", JStr "flow-1");
              ("Attributes", JObj [("CustomerNumber", JStr "+640000001");
                                   ("FirstMessage", JStr "0")]);
              ("ParticipantDetails", JObj [("DisplayName", JStr "+640000001")])]);
     StartContactStreamingCommand (streamingParams Sample.process_env (JStr "c-2"));
     CreateParticipantConnectionCommand (connectionParams (JStr "pt-2"));
     SendMessageCommand (sendMessageParams (JStr "Hi") (JStr "tok-2"));
     PutItemCommand
       (putParams Sample.process_env
          (JObj [("originatingNumber", JObj [("S", JStr "+640000001")]);
                 ("ContactId", JObj [("S", JStr "c-2")]);
                 ("ConnectionToken", JObj [("S", JStr "tok-2")]);
                 ("expiryDateTime", JObj [("N", JStr "1700086400")])]))] /\
  completion r = Normal (Created (JStr "c-2")) /\
  table (final r) !! "+640000001"
  = Some (sessionItem Sample.parseInt Sample.process_env
            (JStr "+640000001") (JStr "c-2") (JStr "tok-2") 1700000000000).
Proof. cbv zeta. repeat split; vm_compute; reflexivity. Qed.

(** A message on the modica path has no flag: the default "0" applies and
    the message is sent on the new connection. *)
Example modica_defaults_to_first_message :
  exists o,
    trace (Sample.invoke Sample.still_here Sample.stale_session) !! 5%nat
    = Some (participantClient,
            SendMessageCommand (sendMessageParams (JStr "Still here") (JStr "tok-2")), o).
Proof. eexists. vm_compute. reflexivity. Qed.

(** An agent-initiated contact (flag "1") is created and stored without any
    send on the new connection. *)
Example agent_message_is_not_sent :
  map (fun call => fst (fst call))
    (trace (Sample.invoke Sample.agent_message Sample.new_number))
  = [dynamoClient; connectClient; connectClient; participantClient; dynamoClient].
Proof. vm_compute. reflexivity. Qed.

(** A body that parses to [null] throws at the first field read. *)
Example null_body_throws :
  Sample.invoke Sample.null_body Sample.live_session
  = {| trace := [];
       completion := Abrupt (TypeError "null" "firstMessage");
       final := Sample.live_session |}.
Proof. reflexivity. Qed.

(** An empty stored contact id is falsy: no rehydration is requested. *)
Example empty_contact_id_is_not_rehydrated :
  exists input o,
    trace (Sample.invoke Sample.first_message Sample.empty_contact) !! 2%nat
    = Some (connectClient, StartChatContactCommand input, o) /\
    prop input "PersistentChat" = JUndefined.
Proof. eexists _, _. split; [vm_compute; reflexivity|reflexivity]. Qed.

(** * More of the handler *)

Section Further.

Variable JSON_parse : string -> Completion JsValue.
Variable parseInt : JsValue -> option Z.
Variable process_env : ProcessEnv.
Context {W : Type}.
Variable service : W -> Command -> Outcome * W.
Variable dynamo_fault : W -> Command -> option Error * W.
Variable clock : W -> Z.

Local Abbreviation invoke event w :=
  (run service dynamo_fault clock (handler JSON_parse parseInt process_env event) w).

(** Name the calls, the completion and the final world of an invocation,
    with the path [Hh] they follow. *)
Ltac paths event w Hh :=
  pose proof (run_handled JSON_parse parseInt process_env service dynamo_fault clock event w)
    as Hh;
  cbv zeta in Hh;
  let r := fresh "r" in
  let Hr := fresh "Hr" in
  remember (invoke event w) as r eqn:Hr; clear Hr;
  destruct r as [calls completed w'];
  cbn [trace completion final] in *.

Ltac resolution H :=
  inversion H; subst; clear H; unfold lookup_call, send_call in *.

Ltac creation H :=
  inversion H; subst; clear H; unfold first_send in *;
  try match goal with
      | |- context [strict_eq_str ?a ?b] => destruct (strict_eq_str a b) eqn:?
      | _ : context [strict_eq_str ?a ?b] |- _ => destruct (strict_eq_str a b) eqn:?
      end;
  cbn [app] in *.

Ltac position H :=
  repeat match type of H with
         | (_ :: _) !! ?i = Some _ => destruct i as [|i]; cbn [lookup list_lookup] in H
         | [] !! _ = Some _ => discriminate H
         end.

(** ** The request *)

(** X1. A request is accepted only on the two paths, and only with a truthy
    originating number. On the salesforce path its fields are those of the
    body and the flag is truthy; on the modica path the number is the
    [source] of the body, the [destination] is truthy and the flag is
    absent. *)
Theorem accepted_request (event : Event.t) (req : Request) :
  parse_request JSON_parse event = Return (inr req) ->
  exists parsedBody,
    parse_body JSON_parse (Event.body event) = Normal parsedBody /\
    nullish parsedBody = false /\
    truthy (originatingNumber req) = true /\
    content req = prop parsedBody "content" /\
    ((Event.rawPath event = "/salesforce" /\
      originatingNumber req = prop parsedBody "originatingNumber" /\
      firstMessage req = prop parsedBody "firstMessage" /\
      truthy (firstMessage req) = true) \/
     (Event.rawPath event = "/modica" /\
      originatingNumber req = prop parsedBody "source" /\
      truthy (prop parsedBody "destination") = true /\
      firstMessage req = JUndefined)).
Proof.
  unfold parse_request.
  destruct (parse_body JSON_parse (Event.body event)) as [parsedBody|e];
    cbn [lift bind]; [|discriminate].
  intros H. exists parsedBody. split; [reflexivity|].
  destruct (String.eqb_spec (Event.rawPath event) "/salesforce") as [Hs|_];
    [|destruct (String.eqb_spec (Event.rawPath event) "/modica") as [Hm|_]; [|discriminate H]];
    (destruct (nullish parsedBody) eqn:N;
     [rewrite !(get_prop_throw _ _ N) in H; discriminate H|]);
    rewrite !(get_prop_return _ _ N) in H; cbn [bind] in H.
  - destruct (truthy (prop parsedBody "originatingNumber")) eqn:Hn;
      destruct (truthy (prop parsedBody "firstMessage")) eqn:Hf;
      cbn [negb orb] in H; try discriminate H.
    injection H as <-. cbn [originatingNumber firstMessage content].
    repeat split; try assumption. left. repeat split; assumption.
  - destruct (truthy (prop parsedBody "source")) eqn:Hn;
      destruct (truthy (prop parsedBody "destination")) eqn:Hd;
      cbn [negb orb] in H; try discriminate H.
    injection H as <-. cbn [originatingNumber firstMessage content].
    repeat split; try assumption. right. repeat split; assumption.
Qed.

(** The flag of an accepted request, by path. *)
Lemma accepted_flag (event : Event.t) (req : Request) :
  parse_request JSON_parse event = Return (inr req) ->
  (Event.rawPath event = "/salesforce" /\ truthy (firstMessage req) = true) \/
  (Event.rawPath event = "/modica" /\ firstMessage req = JUndefined).
Proof.
  unfold parse_request.
  destruct (parse_body JSON_parse (Event.body event)) as [parsedBody|e];
    cbn [lift bind]; [|discriminate].
  destruct (String.eqb_spec (Event.rawPath event) "/salesforce") as [Hs|_];
    [|destruct (String.eqb_spec (Event.rawPath event) "/modica") as [Hm|_]; [|discriminate]];
    (destruct (nullish parsedBody) eqn:N;
     [rewrite !(get_prop_throw _ _ N); discriminate|]);
    rewrite !(get_prop_return _ _ N); cbn [bind];
    match goal with |- context [if ?b then _ else _] => destruct b eqn:Hb end;
    intros [= <-]; cbn [firstMessage].
  - left. split; [assumption|]. apply orb_false_elim in Hb as [_ Hf].
    now apply negb_false_iff in Hf.
  - right. now split.
Qed.

(** A [try] block begins with the lookup of the originating number. *)
Lemma resolved_starts req t calls result t' :
  resolved parseInt process_env req t calls result t' ->
  exists o rest, calls = lookup_call process_env req o :: rest.
Proof. intros H. inversion H; subst; eexists _, _; reflexivity. Qed.

(** X2. A request with its required fields goes through to the table: when
    the body parses to a value other than [null] and the path is salesforce
    with a truthy originating number and a truthy flag, or modica with a
    truthy source and a truthy destination, the first call of the
    invocation is the lookup of that number, under the key
    [originatingNumber], in the table of the environment. *)
Theorem valid_request_is_looked_up (event : Event.t) (parsedBody : JsValue) (w : World W) :
  parse_body JSON_parse (Event.body event) = Normal parsedBody ->
  nullish parsedBody = false ->
  (Event.rawPath event = "/salesforce" /\
   truthy (prop parsedBody "originatingNumber") = true /\
   truthy (prop parsedBody "firstMessage") = true) \/
  (Event.rawPath event = "/modica" /\
   truthy (prop parsedBody "source") = true /\
   truthy (prop parsedBody "destination") = true) ->
  exists o rest,
    trace (invoke event w)
    = (dynamoClient,
       GetItemCommand
         (JObj [("TableName", env_value (DYNAMO_TABLE_NAME process_env));
                ("Key",
                 JObj [("originatingNumber",
                        JObj [("S", prop parsedBody
                                      (if String.eqb (Event.rawPath event) "/salesforce"
                                       then "originatingNumber" else "source"))])])]),
       o) :: rest.
Proof.
  intros Hparse N Hvalid.
  assert (Hreq : exists req,
             parse_request JSON_parse event = Return (inr req) /\
             originatingNumber req
             = prop parsedBody (if String.eqb (Event.rawPath event) "/salesforce"
                                then "originatingNumber" else "source")).
  { unfold parse_request. rewrite Hparse. cbn [lift bind].
    destruct Hvalid as [(-> & Hn & Hf) | (-> & Hn & Hd)];
      cbn [String.eqb Ascii.eqb Bool.eqb]; rewrite !(get_prop_return _ _ N); cbn [bind];
      rewrite Hn, ?Hf, ?Hd; cbn [negb orb]; eexists; split; reflexivity. }
  destruct Hreq as (req & Hreq & Hnumber).
  paths event w Hh.
  inversion Hh as [e He| He|req' ? result ? Hreq' Hres]; clear Hh; try congruence.
  assert (req' = req) as -> by congruence.
  destruct (resolved_starts _ _ _ _ _ Hres) as (o & rest & ->).
  exists o, rest. unfold lookup_call, dbParams. cbn [originatingNumber defaulted].
  now rewrite Hnumber.
Qed.

(** ** The calls *)

Ltac ordered :=
  first [ exists true, true; eexists; reflexivity
        | exists true, false; eexists; reflexivity
        | exists false, true; eexists; reflexivity
        | exists false, false; eexists; reflexivity ].

(** X3. The calls of an invocation are made in the order of the source and
    each step at most once: they are an initial segment of lookup, reuse
    send (when attempted), contact creation, streaming, participant
    connection, first-message send (when made), write. So no invocation
    creates two contacts, writes twice, or makes more than seven calls. *)
Theorem calls_follow_the_order (event : Event.t) (w : World W) :
  exists reuse first, steps (trace (invoke event w)) `prefix_of` order reuse first.
Proof.
  paths event w Hh.
  inversion Hh as [e He| He|req ? result ? Hreq Hres]; subst; clear Hh; [ordered..|].
  resolution Hres; try ordered;
    match goal with H : created _ _ _ _ _ _ _ _ |- _ => creation H end;
    ordered.
Qed.

Lemma created_status req prev t calls result t' :
  created parseInt process_env req prev t calls result t' ->
  Result.statusCode result = 200 \/ Result.statusCode result = 500.
Proof. intros H. inversion H; subst; (now left) || (now right). Qed.

Lemma resolved_status req t calls result t' :
  resolved parseInt process_env req t calls result t' ->
  Result.statusCode result = 200 \/ Result.statusCode result = 500.
Proof.
  intros H. inversion H; subst; try (now left); try (now right);
    eapply created_status; eassumption.
Qed.

(** X4. The handler can only throw before its first call: an invocation
    that completes abruptly threw while reading the request, made no call
    and left the world as it was; an invocation that has made a call
    returns a result, with status code 200 or 500. *)
Theorem throws_only_before_the_first_call (event : Event.t) (w : World W) :
  (forall e,
      completion (invoke event w) = Abrupt e ->
      parse_request JSON_parse event = Throw e /\
      trace (invoke event w) = [] /\
      final (invoke event w) = w) /\
  (trace (invoke event w) <> [] ->
   exists result,
     completion (invoke event w) = Normal result /\
     (Result.statusCode result = 200 \/ Result.statusCode result = 500)).
Proof.
  split.
  - intros e. unfold handler.
    destruct (parse_request_cases JSON_parse event) as [(e' & He) | [He | (req & He)]];
      rewrite He; cbn [bind run completion trace final].
    + intros [= <-]. repeat split.
    + discriminate.
    + intros Habrupt.
      destruct (run_resolved parseInt process_env service dynamo_fault clock (defaulted req) w)
        as (result & Hr & _).
      cbv zeta in Hr. congruence.
  - intros Hcalls. paths event w Hh.
    inversion Hh as [e He| He|req ? result ? Hreq Hres]; subst; clear Hh;
      [now destruct Hcalls..|].
    exists result. split; [reflexivity|]. eapply resolved_status; eassumption.
Qed.

(** X5. The reuse is attempted exactly when the looked-up item has a truthy
    [ConnectionToken] attribute and a [ContactId] attribute: the test of
    line 88 is on the attribute, not on its string, so a record whose token
    is the empty string is tried too. The send carries the stored token. *)
Theorem reuse_is_attempted_on_the_attribute
    (event : Event.t) (w : World W) (command : Command) (looked_up : list (string * JsValue)) :
  trace (invoke event w) !! 0%nat = Some (dynamoClient, command, Resolved looked_up) ->
  ((exists input o,
       trace (invoke event w) !! 1%nat
       = Some (participantClient, SendMessageCommand input, o)) <->
   truthy (found looked_up) = true /\ nullish (storedContactId looked_up) = false) /\
  (forall client input o,
      trace (invoke event w) !! 1%nat = Some (client, SendMessageCommand input, o) ->
      prop input "ConnectionToken" = storedToken looked_up).
Proof.
  intros H0. paths event w Hh.
  inversion Hh as [e He| He|req ? result ? Hreq Hres]; subst; clear Hh;
    [discriminate H0..|].
  resolution Hres; cbn [lookup list_lookup] in *; simplify_eq.
  - split; [|intros ? ? ? [=]].
    split; [intros (? & ? & [=])|intros [_ ?]; congruence].
  - split; [|intros ? ? ? [= <- <- <-]; reflexivity].
    split; [now intros _|intros _; eexists _, _; reflexivity].
  - split; [|intros ? ? ? [= <- <- <-]; reflexivity].
    split; [now intros _|intros _; eexists _, _; reflexivity].
  - match goal with H : created _ _ _ _ _ _ _ _ |- _ =>
      destruct (created_starts _ _ _ _ _ _ _ _ H) as (o & rest & ->) end.
    unfold start_call. cbn [lookup list_lookup].
    split; [|intros ? ? ? [=]].
    split; [intros (? & ? & [=])|intros [? _]; congruence].
Qed.

(** Where a creation request is in a [try] block, and what it is. *)
Lemma resolved_start req t calls result t' i client input o :
  resolved parseInt process_env req t calls result t' ->
  calls !! i = Some (client, StartChatContactCommand input, o) ->
  exists previousContactId, input = startChatParams process_env req previousContactId.
Proof.
  intros H Hi. resolution H; try (position Hi; simplify_eq; fail);
    match goal with H : created _ _ _ _ _ _ _ _ |- _ => rename H into Hcr end.
  - destruct i as [|[|i]]; cbn [lookup list_lookup] in Hi; simplify_eq.
    creation Hcr; position Hi;
      unfold start_call, streaming_call, connection_call, send_call, put_call in *;
      simplify_eq; eexists; reflexivity.
  - destruct i as [|i]; cbn [lookup list_lookup] in Hi; simplify_eq.
    creation Hcr; position Hi;
      unfold start_call, streaming_call, connection_call, send_call, put_call in *;
      simplify_eq; eexists; reflexivity.
Qed.

(** X6. Whatever the path to it, a creation request is for the instance
    and the contact flow of the environment, names the customer by the
    originating number, as attribute and as display name, and carries the
    first-message flag after its default: the flag of the body on the
    salesforce path, always "0" on the modica path. *)
Theorem creation_request_names_the_customer
    (event : Event.t) (w : World W) (i : nat) (client : Client) (input : JsValue)
    (o : Outcome) :
  trace (invoke event w) !! i = Some (client, StartChatContactCommand input, o) ->
  exists req,
    parse_request JSON_parse event = Return (inr req) /\
    prop input "InstanceId" = env_value (CONNECT_INSTANCE_ID process_env) /\
    prop input "ContactFlowId" = env_value (CONTACT_FLOW_ID process_env) /\
    prop (prop input "Attributes") "CustomerNumber" = originatingNumber req /\
    prop (prop input "ParticipantDetails") "DisplayName" = originatingNumber req /\
    (Event.rawPath event = "/salesforce" ->
     prop (prop input "Attributes") "FirstMessage" = firstMessage req) /\
    (Event.rawPath event = "/modica" ->
     prop (prop input "Attributes") "FirstMessage" = JStr "0").
Proof.
  intros Hi. paths event w Hh.
  inversion Hh as [e He| He|req ? result ? Hreq Hres]; subst; clear Hh;
    [discriminate Hi..|].
  destruct (resolved_start _ _ _ _ _ _ _ _ _ Hres Hi) as (prev & ->).
  exists req. split; [assumption|].
  assert (Hflag : prop (prop (startChatParams process_env (defaulted req) prev) "Attributes")
                    "FirstMessage" = default_firstMessage (firstMessage req))
    by (unfold startChatParams; destruct (truthy prev); reflexivity).
  rewrite Hflag.
  destruct (accepted_flag event req Hreq) as [(Hs & Hf) | (Hm & Hf)].
  - repeat split; try (unfold startChatParams; destruct (truthy prev); reflexivity).
    + intros _. unfold default_firstMessage. now rewrite Hf.
    + intros Hm. rewrite Hs in Hm. discriminate Hm.
  - repeat split; try (unfold startChatParams; destruct (truthy prev); reflexivity).
    + intros Hs. rewrite Hm in Hs. discriminate Hs.
    + intros _. now rewrite Hf.
Qed.

Lemma created_streaming req prev t calls result t' j client input o :
  created parseInt process_env req prev t calls result t' ->
  calls !! j = Some (client, StartContactStreamingCommand input, o) ->
  exists started,
    j = 1%nat /\
    calls !! 0%nat = Some (start_call process_env req prev (Resolved started)) /\
    input = streamingParams process_env (field started "ContactId").
Proof.
  intros H Hj.
  creation H; position Hj;
    unfold start_call, streaming_call, connection_call, send_call, put_call in *;
    simplify_eq; eexists; repeat split.
Qed.

Lemma created_connection req prev t calls result t' j client input o :
  created parseInt process_env req prev t calls result t' ->
  calls !! j = Some (client, CreateParticipantConnectionCommand input, o) ->
  exists started,
    j = 2%nat /\
    calls !! 0%nat = Some (start_call process_env req prev (Resolved started)) /\
    input = connectionParams (field started "ParticipantToken").
Proof.
  intros H Hj.
  creation H; position Hj;
    unfold start_call, streaming_call, connection_call, send_call, put_call in *;
    simplify_eq; eexists; repeat split.
Qed.

(** X7. The streaming and the participant connection are for the contact
    just created: the streaming request, made right after a creation that
    resolved, carries the [ContactId] of its response, the instance and the
    streaming endpoint of the environment; the connection request, made
    two calls after it, carries the [ParticipantToken] of that response. *)
Theorem streaming_and_connection_are_for_the_new_contact (event : Event.t) (w : World W) :
  (forall i client input o,
      trace (invoke event w) !! Datatypes.S i
      = Some (client, StartContactStreamingCommand input, o) ->
      exists starting started,
        trace (invoke event w) !! i
        = Some (connectClient, StartChatContactCommand starting, Resolved started) /\
        input
        = JObj [("InstanceId", env_value (CONNECT_INSTANCE_ID process_env));
                ("ContactId", field started "ContactId");
                ("ChatStreamingConfiguration",
                 JObj [("StreamingEndpointArn",
                        env_value (SNS_STREAMING_ARN process_env))])]) /\
  (forall i client input o,
      trace (invoke event w) !! Datatypes.S (Datatypes.S i)
      = Some (client, CreateParticipantConnectionCommand input, o) ->
      exists starting started,
        trace (invoke event w) !! i
        = Some (connectClient, StartChatContactCommand starting, Resolved started) /\
        input
        = JObj [("ParticipantToken", field started "ParticipantToken");
                ("Type", JArr [JStr "CONNECTION_CREDENTIALS"]);
                ("ConnectParticipant", JBool true)]).
Proof.
  paths event w Hh.
  inversion Hh as [e He| He|req ? result ? Hreq Hres]; subst; clear Hh;
    [split; intros ? ? ? ? Hi; discriminate Hi..|].
  split; intros i client input o Hi.
  - resolution Hres; cbn [lookup list_lookup] in Hi; try (position Hi; simplify_eq; fail);
      match goal with H : created _ _ _ _ _ _ _ _ |- _ => rename H into Hcr end.
    + destruct i as [|i]; cbn [lookup list_lookup] in Hi; [discriminate Hi|].
      destruct (created_streaming _ _ _ _ _ _ _ _ _ _ Hcr Hi) as (started & -> & Hstart & ->).
      cbn [lookup list_lookup]. eexists _, _. split; [exact Hstart|reflexivity].
    + destruct (created_streaming _ _ _ _ _ _ _ _ _ _ Hcr Hi) as (started & -> & Hstart & ->).
      cbn [lookup list_lookup]. eexists _, _. split; [exact Hstart|reflexivity].
  - resolution Hres; cbn [lookup list_lookup] in Hi; try (position Hi; simplify_eq; fail);
      match goal with H : created _ _ _ _ _ _ _ _ |- _ => rename H into Hcr end.
    + destruct (created_connection _ _ _ _ _ _ _ _ _ _ Hcr Hi) as (started & -> & Hstart & ->).
      cbn [lookup list_lookup]. eexists _, _. split; [exact Hstart|reflexivity].
    + destruct (created_connection _ _ _ _ _ _ _ _ _ _ Hcr Hi) as (started & [= ->] & Hstart & ->).
      cbn [lookup list_lookup]. eexists _, _. split; [exact Hstart|reflexivity].
Qed.

Lemma created_without_credentials req prev t calls result t' i client input connected :
  created parseInt process_env req prev t calls result t' ->
  calls !! i = Some (client, CreateParticipantConnectionCommand input, Resolved connected) ->
  nullish (field connected "ConnectionCredentials") = true ->
  length calls = Datatypes.S i /\
  result = Critical_Error (read_error (field connected "ConnectionCredentials") "ConnectionToken") /\
  t' = t.
Proof.
  intros H Hi Hc.
  creation H; position Hi; try discriminate Hi; simplify_eq; try congruence;
    repeat split.
Qed.

(** X8. A participant connection that comes without its credentials ends
    the invocation: the read of line 160 throws, no further call is made,
    the result is the 500 one with the message of the [TypeError], and the
    table is left as it was, although the contact has been created. *)
Theorem connection_without_credentials_is_fatal
    (event : Event.t) (w : World W) (i : nat) (client : Client) (input : JsValue)
    (connected : list (string * JsValue)) :
  trace (invoke event w) !! i
  = Some (client, CreateParticipantConnectionCommand input, Resolved connected) ->
  nullish (field connected "ConnectionCredentials") = true ->
  length (trace (invoke event w)) = Datatypes.S i /\
  completion (invoke event w)
  = Normal {| Result.statusCode := 500;
              Result.body :=
                JSON_stringify
                  (JObj [("error",
                          JStr (message (read_error (field connected "ConnectionCredentials")
                                           "ConnectionToken")))]) |} /\
  table (final (invoke event w)) = table w.
Proof.
  intros Hi Hc. paths event w Hh.
  inversion Hh as [e He| He|req ? result ? Hreq Hres]; subst; clear Hh;
    [discriminate Hi..|].
  resolution Hres; try (position Hi; simplify_eq; fail);
    match goal with H : created _ _ _ _ _ _ _ _ |- _ => rename H into Hcr end.
  - destruct i as [|[|i]]; cbn [lookup list_lookup] in Hi; simplify_eq.
    destruct (created_without_credentials _ _ _ _ _ _ _ _ _ _ Hcr Hi Hc) as (Hl & -> & ->).
    cbn [length]. rewrite Hl. repeat split.
  - destruct i as [|i]; cbn [lookup list_lookup] in Hi; simplify_eq.
    destruct (created_without_credentials _ _ _ _ _ _ _ _ _ _ Hcr Hi Hc) as (Hl & -> & ->).
    cbn [length]. rewrite Hl. repeat split.
Qed.

(** ** The table *)

(** The first call of a computation is answered by the world it starts in. *)
Lemma first_call {A : Type} (m : Async A) (w : World W) (client : Client)
    (command : Command) (o : Outcome) (rest : list Call) :
  trace (run service dynamo_fault clock m w) = (client, command, o) :: rest ->
  o = fst (perform service dynamo_fault w command).
Proof.
  revert w. induction m as [a|e|c cmd k IH|k IH]; intros w; cbn [run].
  - discriminate.
  - discriminate.
  - destruct (perform service dynamo_fault w cmd) as [o' w1] eqn:E.
    cbn [after trace]. intros [= <- <- <- _]. now rewrite E.
  - apply IH.
Qed.

Lemma key_of_dbParams (number : JsValue) :
  key_of (prop (dbParams process_env number) "Key")
  = match number with JStr k => Some k | _ => None end.
Proof. reflexivity. Qed.

(** A lookup that resolves has read the table under the number. *)
Lemma lookup_reads_the_table (w : World W) (number : JsValue)
    (looked_up : list (string * JsValue)) :
  fst (perform service dynamo_fault w (GetItemCommand (dbParams process_env number)))
  = Resolved looked_up ->
  exists k,
    number = JStr k /\
    looked_up = match table w !! k with
                | Some item => [("Item", item)]
                | None => []
                end.
Proof.
  unfold perform. destruct (dynamo_fault _ _) as [[err|] s]; cbn [fst]; [discriminate|].
  unfold GetItem. rewrite key_of_dbParams.
  destruct number; try discriminate.
  intros H. exists s0. split; [reflexivity|].
  destruct (table w !! s0); now injection H as <-.
Qed.

Lemma sessionItem_attributes (number ContactId token : JsValue) (now : Z) :
  let item := sessionItem parseInt process_env number ContactId token now in
  prop (prop item "ContactId") "S" = ContactId /\
  prop (prop item "ConnectionToken") "S" = token /\
  truthy (prop item "ConnectionToken") = true /\
  nullish (prop item "ContactId") = false.
Proof. repeat split. Qed.

(** X9. The contact id the handler reports is the one it has stored: when
    the result is the [Created] one, the last call of the invocation is a
    write that resolved, the table holds under the originating number the
    item of that write, whose contact id is the reported one and whose
    connection token is the token of the new participant connection, and a
    lookup of the number in that table returns this item. *)
Theorem created_session_is_stored (event : Event.t) (w : World W) (ContactId : JsValue) :
  completion (invoke event w) = Normal (Created ContactId) ->
  exists req k item i connecting connected,
    parse_request JSON_parse event = Return (inr req) /\
    originatingNumber req = JStr k /\
    last (trace (invoke event w))
    = Some (dynamoClient, PutItemCommand (putParams process_env item), Resolved []) /\
    table (final (invoke event w)) !! k = Some item /\
    GetItem (table (final (invoke event w))) (dbParams process_env (JStr k))
    = Resolved [("Item", item)] /\
    prop (prop item "ContactId") "S" = ContactId /\
    trace (invoke event w) !! i
    = Some (participantClient, CreateParticipantConnectionCommand connecting,
            Resolved connected) /\
    prop (prop item "ConnectionToken") "S" = newToken connected.
Proof.
  intros Hc. paths event w Hh.
  inversion Hh as [e He| He|req ? result ? Hreq Hres]; clear Hh; simplify_eq.
  assert (Hs : Result.statusCode (Created ContactId) <> 500) by discriminate.
  assert (Hround : forall k item (t : gmap string JsValue),
             GetItem (<[k := item]> t) (dbParams process_env (JStr k))
             = Resolved [("Item", item)]).
  { intros k item t. unfold GetItem. rewrite key_of_dbParams. now rewrite lookup_insert_eq. }
  exists req.
  resolution Hres; try discriminate;
    match goal with H : created _ _ _ _ _ _ _ _ |- _ => rename H into Hcr end;
    destruct (created_saved _ _ _ _ _ _ _ _ Hcr Hs)
      as (started & streamed & connected & sent & now & k & Hk & _ & -> & Hresult & ->);
    injection Hresult as ->;
    exists k, (newItem parseInt process_env (defaulted req) started connected now).
  - exists 4%nat. eexists _, connected.
    repeat split; try assumption; try apply lookup_insert_eq; try apply Hround.
    unfold first_send. now destruct (strict_eq_str _ _).
  - exists 3%nat. eexists _, connected.
    repeat split; try assumption; try apply lookup_insert_eq; try apply Hround.
    unfold first_send. now destruct (strict_eq_str _ _).
Qed.

(** X10. An invocation touches the record of its own originating number
    only: the record of any other number is after the invocation what it
    was before. *)
Theorem other_numbers_are_untouched (event : Event.t) (w : World W) (k : string) :
  (forall req, parse_request JSON_parse event = Return (inr req) ->
               originatingNumber req <> JStr k) ->
  table (final (invoke event w)) !! k = table w !! k.
Proof.
  intros Hother. paths event w Hh.
  inversion Hh as [e He| He|req ? result ? Hreq Hres]; subst; clear Hh; try reflexivity.
  destruct (resolved_table _ _ _ _ _ _ _ Hres)
    as [->|(started & connected & now & k' & Hk & ->)]; [reflexivity|].
  apply lookup_insert_ne. intros ->. now apply (Hother req Hreq).
Qed.

(** What an invocation does with a record it finds, from what the world is
    like: the number is in the table and the table can be read. *)
Lemma found_record (event : Event.t) (req : Request) (k : string) (item : JsValue)
    (w : World W) :
  parse_request JSON_parse event = Return (inr req) ->
  originatingNumber req = JStr k ->
  table w !! k = Some item ->
  fst (dynamo_fault (services w) (GetItemCommand (dbParams process_env (JStr k)))) = None ->
  exists rest result,
    trace (invoke event w)
    = lookup_call process_env (defaulted req) (Resolved [("Item", item)]) :: rest /\
    completion (invoke event w) = Normal result /\
    resolved parseInt process_env (defaulted req) (table w)
      (lookup_call process_env (defaulted req) (Resolved [("Item", item)]) :: rest)
      result (table (final (invoke event w))).
Proof.
  intros Hreq Hk Hitem Hfault.
  pose proof (first_call (handler JSON_parse parseInt process_env event) w) as Hfirst.
  paths event w Hh.
  inversion Hh as [e He| He|req' ? result ? Hreq' Hres]; clear Hh; try congruence.
  assert (req' = req) as -> by congruence. subst.
  destruct (resolved_starts _ _ _ _ _ Hres) as (o & rest & ->).
  specialize (Hfirst _ _ _ _ eq_refl).
  cbn [defaulted originatingNumber] in Hfirst. rewrite Hk in Hfirst.
  unfold perform in Hfirst. destruct (dynamo_fault _ _) as [fault s].
  cbn [fst] in Hfault. subst fault. cbn [fst] in Hfirst.
  unfold GetItem in Hfirst. rewrite key_of_dbParams, Hitem in Hfirst. subst o.
  exists rest, result. repeat split. exact Hres.
Qed.

Lemma stored_session_is_tried (event : Event.t) (req : Request) (k : string) (item : JsValue)
    (w : World W) :
  parse_request JSON_parse event = Return (inr req) ->
  originatingNumber req = JStr k ->
  table w !! k = Some item ->
  truthy (prop item "ConnectionToken") = true ->
  nullish (prop item "ContactId") = false ->
  fst (dynamo_fault (services w) (GetItemCommand (dbParams process_env (JStr k)))) = None ->
  exists o,
    trace (invoke event w) !! 1%nat
    = Some (send_call (content req) (prop (prop item "ConnectionToken") "S") o) /\
    (forall sent,
        o = Resolved sent ->
        completion (invoke event w) = Normal (Resumed (field sent "Id")) /\
        table (final (invoke event w)) = table w).
Proof.
  intros Hreq Hk Hitem Htoken Hcontact Hfault.
  destruct (found_record event req k item w Hreq Hk Hitem Hfault)
    as (rest & result & -> & -> & Hres).
  assert (Hfound : truthy (found [("Item", item)]) = true).
  { unfold found. cbn [field String.eqb Ascii.eqb Bool.eqb].
    now rewrite (truthy_prop _ _ Htoken). }
  remember (table (final (invoke event w))) as t' eqn:Ht'. clear Ht'.
  inversion Hres; subst; unfold storedContactId, storedToken in *;
    cbn [field String.eqb Ascii.eqb Bool.eqb] in *; try congruence.
  - eexists. split; [reflexivity|]. intros sent' [= <-]. split; reflexivity.
  - eexists. split; [reflexivity|]. intros sent' [=].
Qed.

Lemma created_stored (event : Event.t) (w : World W) (ContactId : JsValue) :
  completion (invoke event w) = Normal (Created ContactId) ->
  exists req k i connecting connected now,
    parse_request JSON_parse event = Return (inr req) /\
    originatingNumber req = JStr k /\
    trace (invoke event w) !! i
    = Some (participantClient, CreateParticipantConnectionCommand connecting,
            Resolved connected) /\
    table (final (invoke event w)) !! k
    = Some (sessionItem parseInt process_env (JStr k) ContactId (newToken connected) now).
Proof.
  intros Hc. paths event w Hh.
  inversion Hh as [e He| He|req ? result ? Hreq Hres]; clear Hh; simplify_eq.
  assert (Hs : Result.statusCode (Created ContactId) <> 500) by discriminate.
  exists req.
  resolution Hres; try discriminate;
    match goal with H : created _ _ _ _ _ _ _ _ |- _ => rename H into Hcr end;
    destruct (created_saved _ _ _ _ _ _ _ _ Hcr Hs)
      as (started & streamed & connected & sent & now & k & Hk & _ & -> & Hresult & ->);
    injection Hresult as ->; exists k.
  - exists 4%nat. eexists _, connected, now.
    repeat split; try assumption.
    rewrite lookup_insert_eq. unfold newItem. now rewrite Hk.
  - exists 3%nat. eexists _, connected, now.
    repeat split; try assumption.
    rewrite lookup_insert_eq. unfold newItem. now rewrite Hk.
Qed.

(** X11. A session that has just been created is the one the next message
    uses: after an invocation that returned the [Created] result, an
    invocation for a request of the same originating number, when the
    table can be read, sends the content of that request through the token
    of the connection the first invocation created; when this send
    resolves it returns the [Resumed] result and leaves the table as the
    first invocation left it. *)
Theorem created_session_is_reused_next
    (first second : Event.t) (req1 req2 : Request) (ContactId : JsValue) (w : World W) :
  completion (invoke first w) = Normal (Created ContactId) ->
  parse_request JSON_parse first = Return (inr req1) ->
  parse_request JSON_parse second = Return (inr req2) ->
  originatingNumber req2 = originatingNumber req1 ->
  fst (dynamo_fault (services (final (invoke first w)))
         (GetItemCommand (dbParams process_env (originatingNumber req2)))) = None ->
  exists i connecting connected o,
    trace (invoke first w) !! i
    = Some (participantClient, CreateParticipantConnectionCommand connecting,
            Resolved connected) /\
    trace (invoke second (final (invoke first w))) !! 1%nat
    = Some (participantClient,
            SendMessageCommand (sendMessageParams (content req2) (newToken connected)),
            o) /\
    (forall sent,
        o = Resolved sent ->
        completion (invoke second (final (invoke first w))) = Normal (Resumed (field sent "Id")) /\
        table (final (invoke second (final (invoke first w)))) = table (final (invoke first w))).
Proof.
  intros Hc Hreq1 Hreq2 Hsame Hfault.
  destruct (created_stored first w ContactId Hc)
    as (req & k & i & connecting & connected & now & Hreq & Hk & Hi & Hitem).
  assert (req = req1) as -> by congruence.
  rewrite Hsame, Hk in Hfault. rewrite <- Hsame in Hk.
  destruct (sessionItem_attributes (JStr k) ContactId (newToken connected) now)
    as (_ & Htoken & Htruthy & Hcontact).
  destruct (stored_session_is_tried second req2 k _ (final (invoke first w))
              Hreq2 Hk Hitem Htruthy Hcontact Hfault) as (o & H1 & Hresumed).
  rewrite Htoken in H1.
  exists i, connecting, connected, o. split; [exact Hi|]. split; [exact H1|exact Hresumed].
Qed.

Lemma record_without_contact_once (event : Event.t) (req : Request) (k : string)
    (item : JsValue) (w : World W) :
  parse_request JSON_parse event = Return (inr req) ->
  originatingNumber req = JStr k ->
  table w !! k = Some item ->
  truthy (prop item "ConnectionToken") = true ->
  nullish (prop item "ContactId") = true ->
  fst (dynamo_fault (services w) (GetItemCommand (dbParams process_env (JStr k)))) = None ->
  length (trace (invoke event w)) = 1%nat /\
  completion (invoke event w)
  = Normal (Critical_Error (read_error (prop item "ContactId") "S")) /\
  table (final (invoke event w)) = table w.
Proof.
  intros Hreq Hk Hitem Htoken Hcontact Hfault.
  destruct (found_record event req k item w Hreq Hk Hitem Hfault)
    as (rest & result & -> & -> & Hres).
  assert (Hfound : truthy (found [("Item", item)]) = true).
  { unfold found. cbn [field String.eqb Ascii.eqb Bool.eqb].
    now rewrite (truthy_prop _ _ Htoken). }
  remember (table (final (invoke event w))) as t' eqn:Ht'. clear Ht'.
  inversion Hres; subst; unfold storedContactId in *;
    cbn [field String.eqb Ascii.eqb Bool.eqb] in *; try congruence.
  repeat split.
Qed.

(** X12. A record that has a connection token and no contact id blocks its
    number: the read of line 90 throws before any send, the handler returns
    the 500 result with the message of the [TypeError] and leaves the
    record as it is, so that, with a table that can be read, every
    invocation of a run of invocations for that number ends the same way. *)
Theorem record_without_contact_blocks_the_number
    (event : Event.t) (req : Request) (k : string) (item : JsValue) (w : World W) (n : nat) :
  parse_request JSON_parse event = Return (inr req) ->
  originatingNumber req = JStr k ->
  table w !! k = Some item ->
  truthy (prop item "ConnectionToken") = true ->
  nullish (prop item "ContactId") = true ->
  (forall s, fst (dynamo_fault s (GetItemCommand (dbParams process_env (JStr k)))) = None) ->
  let wn := invocations JSON_parse parseInt process_env service dynamo_fault clock n event w in
  length (trace (invoke event wn)) = 1%nat /\
  completion (invoke event wn)
  = Normal {| Result.statusCode := 500;
              Result.body :=
                JSON_stringify
                  (JObj [("error",
                          JStr (message (read_error (prop item "ContactId") "S")))]) |} /\
  table (final (invoke event wn)) = table w.
Proof.
  intros Hreq Hk Hitem Htoken Hcontact Hfault.
  assert (Hn : forall n w0, table w0 = table w ->
             table (invocations JSON_parse parseInt process_env service dynamo_fault clock
                      n event w0) = table w).
  { clear n. induction n as [|n IH]; intros w0 Hw0; cbn [invocations]; [exact Hw0|].
    apply IH.
    assert (Hitem0 : table w0 !! k = Some item) by now rewrite Hw0.
    destruct (record_without_contact_once event req k item w0 Hreq Hk Hitem0 Htoken Hcontact
                (Hfault _)) as (_ & _ & ->).
    exact Hw0. }
  intros wn. specialize (Hn n w eq_refl). fold wn in Hn.
  assert (Hitemn : table wn !! k = Some item) by now rewrite Hn.
  destruct (record_without_contact_once event req k item wn Hreq Hk Hitemn Htoken Hcontact
              (Hfault _)) as (Hl & Hc & Ht).
  split; [exact Hl|]. split; [exact Hc|]. now rewrite Ht.
Qed.

(** X13. A 200 result means a session is on record: after an invocation
    that returned status code 200, resumed or created, the table holds
    under the originating number an item with a connection token and a
    contact id, which is what the next invocation will try to reuse. *)
Theorem success_leaves_a_session (event : Event.t) (w : World W) (result : Result.t) :
  completion (invoke event w) = Normal result ->
  Result.statusCode result = 200 ->
  exists req k item,
    parse_request JSON_parse event = Return (inr req) /\
    originatingNumber req = JStr k /\
    table (final (invoke event w)) !! k = Some item /\
    truthy (prop item "ConnectionToken") = true /\
    nullish (prop item "ContactId") = false.
Proof.
  intros Hc Hs.
  pose proof (first_call (handler JSON_parse parseInt process_env event) w) as Hfirst.
  assert (Hs' : Result.statusCode result <> 500) by (rewrite Hs; discriminate).
  paths event w Hh.
  inversion Hh as [e He| He|req ? result' ? Hreq Hres]; clear Hh; simplify_eq.
  exists req.
  assert (Hsaved : forall prev made t',
             created parseInt process_env (defaulted req) prev (table w) made result t' ->
             exists k item,
               parse_request JSON_parse event = Return (inr req) /\
               originatingNumber req = JStr k /\ t' !! k = Some item /\
               truthy (prop item "ConnectionToken") = true /\
               nullish (prop item "ContactId") = false).
  { intros prev made t' Hcr.
    destruct (created_saved _ _ _ _ _ _ _ _ Hcr Hs')
      as (started & streamed & connected & sent & now & k & Hk & _ & _ & _ & ->).
    exists k. eexists. split; [exact Hreq|]. split; [exact Hk|].
    split; [apply lookup_insert_eq|]. split; reflexivity. }
  resolution Hres; try discriminate Hs; eauto.
  - specialize (Hfirst _ _ _ _ eq_refl).
    destruct (lookup_reads_the_table _ _ _ (eq_sym Hfirst)) as (k & Hk & Hlooked).
    exists k.
    match goal with H : truthy (found looked_up) = true |- _ => rename H into Hfound end.
    match goal with H : nullish (storedContactId looked_up) = false |- _ =>
      rename H into Hcontact end.
    unfold found, storedContactId in *. rewrite Hlooked in Hfound, Hcontact.
    destruct (table w !! k) as [item|]; cbn [field String.eqb Ascii.eqb Bool.eqb] in *;
      [|discriminate Hfound].
    exists item. destruct (truthy item) eqn:Hitem; [|congruence].
    repeat split; assumption.
Qed.

(** X14. The expiry that the handler writes (lines 178 to 190) is read off
    the clock: whenever an invocation sends a write, the [expiryDateTime]
    of its item is the numeral of the whole seconds of the clock plus 3600
    seconds for each hour of the time-to-live, where the clock is the one
    of the world that the calls before the write have left, which is the
    world in which the write is performed, and the time-to-live is what
    [parseInt] reads in [SESSION_TTL_HOURS], or 24 when that is [NaN] or
    0. This is stated for a clock reading and a time-to-live within the
    range where the arithmetic of the source is exact. *)
Theorem written_expiry_is_read_off_the_clock
    (event : Event.t) (w : World W) (i : nat) (client : Client) (input : JsValue) (o : Outcome) :
  let w_before := world_after service dynamo_fault (take i (trace (invoke event w))) w in
  let now := clock (services w_before) in
  let ttl := match parseInt (env_value (SESSION_TTL_HOURS process_env)) with
             | Some n => if n =? 0 then 24 else n
             | None => 24
             end in
  trace (invoke event w) !! i = Some (client, PutItemCommand input, o) ->
  exact_expiry now ttl = true ->
  prop (prop (prop input "Item") "expiryDateTime") "N"
  = JStr (pretty (now / 1000 + ttl * 3600)) /\
  perform service dynamo_fault w_before (PutItemCommand input) = (o, final (invoke event w)).
Proof.
  intros w_before now ttl Hi _. subst w_before now ttl.
  destruct (run_handled_write JSON_parse parseInt process_env service dynamo_fault clock
              event w i client input o Hi)
    as (req & j & prev & started & connected & _ & _ & _ & Hinput & Hput & _).
  split; [|exact Hput].
  rewrite Hinput. reflexivity.
Qed.

End Further.

(** ** On the concrete world *)

Lemma accepted_request_witness :
  exists parsedBody,
    parse_body Sample.JSON_parse (Event.body Sample.still_here) = Normal parsedBody /\
    nullish parsedBody = false /\
    truthy (JStr "+640000001") = true /\
    JStr "Still here" = prop parsedBody "content" /\
    ((Event.rawPath Sample.still_here = "/salesforce" /\
      JStr "+640000001" = prop parsedBody "originatingNumber" /\
      JUndefined = prop parsedBody "firstMessage" /\
      truthy JUndefined = true) \/
     (Event.rawPath Sample.still_here = "/modica" /\
      JStr "+640000001" = prop parsedBody "source" /\
      truthy (prop parsedBody "destination") = true /\
      JUndefined = JUndefined)).
Proof.
  apply (accepted_request Sample.JSON_parse Sample.still_here
           {| firstMessage := JUndefined;
              originatingNumber := JStr "+640000001";
              content := JStr "Still here" |}).
  vm_compute. reflexivity.
Defined.

Lemma valid_request_is_looked_up_witness :
  exists o rest,
    trace (Sample.invoke Sample.first_message Sample.live_session)
    = (dynamoClient,
       GetItemCommand
         (JObj [("TableName", JStr "Sessions");
                ("Key", JObj [("originatingNumber", JObj [("S", JStr "+640000001")])])]),
       o) :: rest.
Proof.
  apply (valid_request_is_looked_up Sample.JSON_parse Sample.parseInt Sample.process_env
           Sample.service Sample.dynamo_fault Sample.clock
           Sample.first_message (Sample.json_value Sample.salesforce_first)
           Sample.live_session).
  - vm_compute. reflexivity.
  - reflexivity.
  - left. repeat split.
Defined.

Lemma throws_only_before_the_first_call_witness :
  exists result,
    completion (Sample.invoke Sample.first_message Sample.no_streaming) = Normal result /\
    (Result.statusCode result = 200 \/ Result.statusCode result = 500).
Proof.
  apply (throws_only_before_the_first_call Sample.JSON_parse Sample.parseInt
           Sample.process_env Sample.service Sample.dynamo_fault Sample.clock
           Sample.first_message Sample.no_streaming).
  vm_compute. discriminate.
Defined.

(** A record whose token is the empty string is tried all the same. *)
Lemma reuse_is_attempted_on_the_attribute_witness :
  exists input o,
    trace (Sample.invoke Sample.first_message Scenario.empty_token) !! 1%nat
    = Some (participantClient, SendMessageCommand input, o).
Proof.
  apply (reuse_is_attempted_on_the_attribute Sample.JSON_parse Sample.parseInt
           Sample.process_env Sample.service Sample.dynamo_fault Sample.clock
           Sample.first_message Scenario.empty_token
           (GetItemCommand (dbParams Sample.process_env (JStr "+640000001")))
           [("Item", Scenario.stored_empty_token)]).
  - vm_compute. reflexivity.
  - split; reflexivity.
Defined.

Lemma creation_request_names_the_customer_witness :
  exists req,
    parse_request Sample.JSON_parse Sample.still_here = Return (inr req) /\
    JStr "instance-1" = env_value (CONNECT_INSTANCE_ID Sample.process_env) /\
    JStr "flow-1" = env_value (CONTACT_FLOW_ID Sample.process_env) /\
    JStr "+640000001" = originatingNumber req /\
    JStr "+640000001" = originatingNumber req /\
    (Event.rawPath Sample.still_here = "/salesforce" -> JStr "0" = firstMessage req) /\
    (Event.rawPath Sample.still_here = "/modica" -> JStr "0" = JStr "0").
Proof.
  apply (creation_request_names_the_customer Sample.JSON_parse Sample.parseInt
           Sample.process_env Sample.service Sample.dynamo_fault Sample.clock
           Sample.still_here Sample.stale_session 2%nat connectClient
           (startChatParams Sample.process_env
              {| firstMessage := JStr "0";
                 originatingNumber := JStr "+640000001";
                 content := JStr "Still here" |}
              (JStr "c-1"))
           (Resolved [("ContactId", JStr "c-2"); ("ParticipantToken", JStr "pt-2")])).
  vm_compute. reflexivity.
Defined.

Lemma streaming_and_connection_are_for_the_new_contact_witness :
  exists starting started,
    trace (Sample.invoke Sample.first_message Sample.stale_session) !! 2%nat
    = Some (connectClient, StartChatContactCommand starting, Resolved started) /\
    streamingParams Sample.process_env (JStr "c-2")
    = JObj [("InstanceId", env_value (CONNECT_INSTANCE_ID Sample.process_env));
            ("ContactId", field started "ContactId");
            ("ChatStreamingConfiguration",
             JObj [("StreamingEndpointArn", env_value (SNS_STREAMING_ARN Sample.process_env))])].
Proof.
  apply (proj1 (streaming_and_connection_are_for_the_new_contact
                  Sample.JSON_parse Sample.parseInt Sample.process_env
                  Sample.service Sample.dynamo_fault Sample.clock
                  Sample.first_message Sample.stale_session)
           2%nat connectClient (streamingParams Sample.process_env (JStr "c-2"))
           (Resolved [("StreamingId", JStr "s-2")])).
  vm_compute. reflexivity.
Defined.

Lemma connection_without_credentials_is_fatal_witness :
  let r := run Scenario.service_without_credentials Sample.dynamo_fault Sample.clock
             (Sample.handler Sample.first_message) Sample.new_number in
  length (trace r) = 4%nat /\
  completion r
  = Normal {| Result.statusCode := 500;
              Result.body :=
                JSON_stringify
                  (JObj [("error",
                          JStr "Cannot read properties of undefined (reading 'ConnectionToken')")]) |} /\
  table (final r) = table Sample.new_number.
Proof.
  apply (connection_without_credentials_is_fatal Sample.JSON_parse Sample.parseInt
           Sample.process_env Scenario.service_without_credentials Sample.dynamo_fault
           Sample.clock Sample.first_message Sample.new_number 3%nat participantClient
           (connectionParams (JStr "pt-2")) [("Websocket", JNull)]).
  - vm_compute. reflexivity.
  - reflexivity.
Defined.

Lemma created_session_is_stored_witness :
  exists req k item i connecting connected,
    parse_request Sample.JSON_parse Sample.first_message = Return (inr req) /\
    originatingNumber req = JStr k /\
    last (trace (Sample.invoke Sample.first_message Sample.new_number))
    = Some (dynamoClient, PutItemCommand (putParams Sample.process_env item), Resolved []) /\
    table (final (Sample.invoke Sample.first_message Sample.new_number)) !! k = Some item /\
    GetItem (table (final (Sample.invoke Sample.first_message Sample.new_number)))
      (dbParams Sample.process_env (JStr k))
    = Resolved [("Item", item)] /\
    prop (prop item "ContactId") "S" = JStr "c-2" /\
    trace (Sample.invoke Sample.first_message Sample.new_number) !! i
    = Some (participantClient, CreateParticipantConnectionCommand connecting,
            Resolved connected) /\
    prop (prop item "ConnectionToken") "S" = newToken connected.
Proof.
  apply (created_session_is_stored Sample.JSON_parse Sample.parseInt Sample.process_env
           Sample.service Sample.dynamo_fault Sample.clock
           Sample.first_message Sample.new_number (JStr "c-2")).
  vm_compute. reflexivity.
Defined.

Lemma other_numbers_are_untouched_witness :
  table (final (Sample.invoke Sample.first_message Scenario.two_numbers)) !! "+640000002"
  = Some Scenario.stored_elsewhere /\
  table (final (Sample.invoke Sample.first_message Scenario.two_numbers)) !! "+640000001"
  <> table Scenario.two_numbers !! "+640000001".
Proof.
  split.
  - transitivity (table Scenario.two_numbers !! "+640000002"); [|vm_compute; reflexivity].
    apply (other_numbers_are_untouched Sample.JSON_parse Sample.parseInt Sample.process_env
             Sample.service Sample.dynamo_fault Sample.clock
             Sample.first_message Scenario.two_numbers "+640000002").
    intros req Hreq. vm_compute in Hreq. injection Hreq as <-. discriminate.
  - vm_compute. discriminate.
Defined.

(** Scenario A, then a second message of the same number. *)
Lemma created_session_is_reused_next_witness :
  let first := Sample.invoke Sample.first_message Sample.new_number in
  let second := Sample.invoke Sample.still_here (final first) in
  exists i connecting connected o,
    trace first !! i
    = Some (participantClient, CreateParticipantConnectionCommand connecting,
            Resolved connected) /\
    trace second !! 1%nat
    = Some (participantClient,
            SendMessageCommand (sendMessageParams (JStr "Still here") (newToken connected)),
            o) /\
    (forall sent,
        o = Resolved sent ->
        completion second = Normal (Resumed (field sent "Id")) /\
        table (final second) = table (final first)).
Proof.
  apply (created_session_is_reused_next Sample.JSON_parse Sample.parseInt Sample.process_env
           Sample.service Sample.dynamo_fault Sample.clock
           Sample.first_message Sample.still_here
           {| firstMessage := JStr "0";
              originatingNumber := JStr "+640000001";
              content := JStr "Hi" |}
           {| firstMessage := JUndefined;
              originatingNumber := JStr "+640000001";
              content := JStr "Still here" |}
           (JStr "c-2") Sample.new_number).
  - vm_compute. reflexivity.
  - vm_compute. reflexivity.
  - vm_compute. reflexivity.
  - reflexivity.
  - vm_compute. reflexivity.
Defined.

Lemma record_without_contact_blocks_the_number_witness :
  let wn :=
    invocations Sample.JSON_parse Sample.parseInt Sample.process_env
      Sample.steady_service Sample.steady_fault Sample.steady_clock
      2 Sample.first_message Scenario.without_contact in
  let r := run Sample.steady_service Sample.steady_fault Sample.steady_clock
             (Sample.handler Sample.first_message) wn in
  length (trace r) = 1%nat /\
  completion r
  = Normal {| Result.statusCode := 500;
              Result.body :=
                JSON_stringify
                  (JObj [("error",
                          JStr "Cannot read properties of undefined (reading 'S')")]) |} /\
  table (final r) = table Scenario.without_contact.
Proof.
  apply (record_without_contact_blocks_the_number Sample.JSON_parse Sample.parseInt
           Sample.process_env Sample.steady_service Sample.steady_fault Sample.steady_clock
           Sample.first_message
           {| firstMessage := JStr "0";
              originatingNumber := JStr "+640000001";
              content := JStr "Hi" |}
           "+640000001" Scenario.stored_without_contact Scenario.without_contact 2).
  - vm_compute. reflexivity.
  - reflexivity.
  - vm_compute. reflexivity.
  - reflexivity.
  - reflexivity.
  - intros s. reflexivity.
Defined.

Lemma success_leaves_a_session_witness :
  exists req k item,
    parse_request Sample.JSON_parse Sample.still_here = Return (inr req) /\
    originatingNumber req = JStr k /\
    table (final (Sample.invoke Sample.still_here Sample.live_session)) !! k = Some item /\
    truthy (prop item "ConnectionToken") = true /\
    nullish (prop item "ContactId") = false.
Proof.
  apply (success_leaves_a_session Sample.JSON_parse Sample.parseInt Sample.process_env
           Sample.service Sample.dynamo_fault Sample.clock
           Sample.still_here Sample.live_session (Resumed (JStr "m-1"))).
  - vm_compute. reflexivity.
  - reflexivity.
Defined.

(** A time-to-live of two hours: the session of scenario A expires 7200
    seconds after the second that the clock shows. *)
Lemma written_expiry_is_read_off_the_clock_witness :
  let r := run Sample.service Sample.dynamo_fault Sample.clock
             (handler Sample.JSON_parse Scenario.parseInt Scenario.two_hours
                Sample.first_message) Sample.new_number in
  exists input,
    trace r !! 5%nat = Some (dynamoClient, PutItemCommand input, Resolved []) /\
    prop (prop (prop input "Item") "expiryDateTime") "N" = JStr "1700007200".
Proof.
  intros r.
  exists (putParams Scenario.two_hours
            (sessionItem Scenario.parseInt Scenario.two_hours (JStr "+640000001")
               (JStr "c-2") (JStr "tok-2") 1700000000000)).
  assert (Hi : trace r !! 5%nat
               = Some (dynamoClient,
                       PutItemCommand
                         (putParams Scenario.two_hours
                            (sessionItem Scenario.parseInt Scenario.two_hours
                               (JStr "+640000001") (JStr "c-2") (JStr "tok-2")
                               1700000000000)),
                       Resolved []))
    by (vm_compute; reflexivity).
  split; [exact Hi|].
  apply (written_expiry_is_read_off_the_clock
           Sample.JSON_parse Scenario.parseInt Scenario.two_hours
           Sample.service Sample.dynamo_fault Sample.clock
           Sample.first_message Sample.new_number 5%nat dynamoClient _ (Resolved []) Hi).
  vm_compute. reflexivity.
Defined.
